(** * Unto travel planner: wizard, plan poller and result normaliser

    A shallow embedding of [frontend/unto/src/app/page.tsx] (and of its
    second revision, which differs in a handful of guards and in the polling
    period).  The page is one React function component; what it owns is

    - a JSON-to-markdown renderer ([jsonToMarkdown]),
    - the inline normaliser of [planState.final_output] in the results view,
    - a five-step wizard whose state lives in [useState] slots, and
    - a polling loop built from [fetch], [setInterval] and [clearInterval].

    JavaScript values are modelled by an inductive type, [JSON.parse] by an
    executable push-down recogniser, and the component by a transition
    system whose handlers read the [useState] values of the render that
    created them. *)

From Stdlib Require Import ZArith QArith List String Ascii Bool Lia.
Import ListNotations.

Local Open Scope string_scope.
Local Open Scope Z_scope.

(* ================================================================== *)
(** * JavaScript values *)
(* ================================================================== *)

(** The values the page manipulates: what [JSON.parse] and [response.json()]
    build, plus [undefined] (a missing property) and [NaN].  Finite numbers
    are exact rationals kept in lowest terms; on integers of magnitude below
    2^53 this agrees with IEEE-754 double arithmetic.  Strings are byte
    strings (the UTF-8 text).  An object is the list of its own enumerable
    properties in the order [Object.entries] yields them. *)
#[local] Set Warnings "-register-all".
Inductive value : Type :=
| JUndefined
| JNull
| JBool (b : bool)
| JNum (q : Q)
| JNaN
| JStr (s : string)
| JArr (items : list value)
| JObj (props : list (string * value)).

Module JS.

(** [ToBoolean]: the test performed by [if (v)], [!v], [v && ...], [v || ...]. *)
Definition truthy (v : value) : bool :=
  match v with
  | JUndefined | JNull | JNaN => false
  | JBool b => b
  | JNum q => negb (Z.eqb (Qnum q) 0)
  | JStr s => negb (String.eqb s EmptyString)
  | JArr _ | JObj _ => true
  end.

(** [typeof v]. *)
Definition typeof (v : value) : string :=
  match v with
  | JUndefined => "undefined"
  | JNull => "object"
  | JBool _ => "boolean"
  | JNum _ | JNaN => "number"
  | JStr _ => "string"
  | JArr _ | JObj _ => "object"
  end.

Definition isArray (v : value) : bool :=
  match v with JArr _ => true | _ => false end.

Fixpoint lookup (key : string) (props : list (string * value)) : option value :=
  match props with
  | [] => None
  | (k, v) :: rest => if String.eqb k key then Some v else lookup key rest
  end.

(** [v.key] and [v?.key] for the property names the page reads
    ([value], [summary], [state], [price], ...): none of them is defined
    on a primitive wrapper or on [Array.prototype], so only an object can
    answer.  (On [null] and [undefined] the plain access throws; the call
    sites below guard it or are modelled with the exception.) *)
Definition get (v : value) (key : string) : value :=
  match v with
  | JObj props => match lookup key props with Some x => x | None => JUndefined end
  | _ => JUndefined
  end.

(** [key in v], for an operand that passed [typeof v === 'object'] and is
    not [null], and a key that is not an array index or [length]. *)
Definition has (key : string) (v : value) : bool :=
  match v with
  | JObj props => match lookup key props with Some _ => true | None => false end
  | _ => false
  end.

(** [a || b]. *)
Definition or (a b : value) : value := if truthy a then a else b.

(** [v === "text"]. *)
Definition is_string (v : value) (text : string) : bool :=
  match v with JStr s => String.eqb s text | _ => false end.

Definition is_null (v : value) : bool :=
  match v with JNull => true | _ => false end.

Definition is_nullish (v : value) : bool :=
  match v with JUndefined | JNull => true | _ => false end.

End JS.

(** What the page takes from the host: the locale- and engine-dependent
    formatters.  [Number_toString] is [Number.prototype.toString] on a
    finite number, [toLocaleString] the method of that name on a value that
    is neither [null] nor [undefined], [toLocaleDateString] the composite
    [new Date(v).toLocaleDateString()]. *)
Record Host : Type := {
  Number_toString : Q -> string;
  toLocaleString : value -> string;
  toLocaleDateString : value -> string
}.

Definition newline : string := String (ascii_of_nat 10) EmptyString.

Fixpoint join (sep : string) (parts : list string) : string :=
  match parts with
  | [] => EmptyString
  | [p] => p
  | p :: rest => p ++ sep ++ join sep rest
  end.

Fixpoint repeat_string (s : string) (n : nat) : string :=
  match n with
  | O => EmptyString
  | S n' => s ++ repeat_string s n'
  end.

(* ================================================================== *)
(** * [JSON.parse] *)
(* ================================================================== *)

(** [JSON.parse] is the engine's; the page only calls it.  It is modelled
    by a scanner and a push-down recogniser of the JSON grammar, both
    structurally recursive on their input, so the model is total: every text
    is either a syntax error ([None], the [SyntaxError] the page catches) or
    a value. *)
Module JSON.

Inductive token : Type :=
| TLBrace | TRBrace | TLBracket | TRBracket | TColon | TComma
| TScalar (v : value).

(** ** Scanner *)

Inductive numphase : Type :=
| NMinus | NZero | NInt | NDot | NFrac | NExp | NExpSign | NExpDigits.

(** A number literal in progress: sign, the digits of the integer and
    fraction parts read as one integer, the count of fraction digits, and
    the exponent. *)
Record numacc : Type := {
  negative : bool;
  digits : Z;
  fraction_digits : Z;
  exp_negative : bool;
  exponent : Z
}.

Inductive lstate : Type :=
| LDefault
| LStr (rev_chars : list ascii)
| LEsc (rev_chars : list ascii)
| LUni (rev_chars : list ascii) (seen : nat) (code : Z)
| LLit (expected : list ascii) (result : value)
| LNum (phase : numphase) (acc : numacc).

Definition code (c : ascii) : Z := Z.of_nat (nat_of_ascii c).
Definition char (n : Z) : ascii := ascii_of_nat (Z.to_nat n).

Definition is_ws (c : ascii) : bool :=
  let n := code c in (n =? 32) || (n =? 9) || (n =? 10) || (n =? 13).

Definition digit_of (c : ascii) : option Z :=
  let n := code c in
  if (48 <=? n) && (n <=? 57) then Some (n - 48) else None.

Definition hex_of (c : ascii) : option Z :=
  let n := code c in
  if (48 <=? n) && (n <=? 57) then Some (n - 48)
  else if (65 <=? n) && (n <=? 70) then Some (n - 55)
  else if (97 <=? n) && (n <=? 102) then Some (n - 87)
  else None.

Definition string_of_rev (rev_chars : list ascii) : string :=
  string_of_list_ascii (rev rev_chars).

(** The UTF-8 bytes of one UTF-16 code unit, most significant first. *)
Definition utf8 (cp : Z) : list ascii :=
  if cp <? 128 then [char cp]
  else if cp <? 2048 then
    [char (192 + cp / 64); char (128 + cp mod 64)]
  else
    [char (224 + cp / 4096); char (128 + (cp / 64) mod 64); char (128 + cp mod 64)].

(** The value of a finished number literal, in lowest terms. *)
Definition number_value (a : numacc) : value :=
  let m := if negative a then - digits a else digits a in
  let e := (if exp_negative a then - exponent a else exponent a) - fraction_digits a in
  if 0 <=? e
  then JNum (Qred (Qmake (m * 10 ^ e) 1))
  else JNum (Qred (Qmake m (Z.to_pos (10 ^ (- e))))).

Definition num0 (neg : bool) (d : Z) : numacc :=
  {| negative := neg; digits := d; fraction_digits := 0;
     exp_negative := false; exponent := 0 |}.

Definition push_digit (a : numacc) (d : Z) : numacc :=
  {| negative := negative a; digits := digits a * 10 + d;
     fraction_digits := fraction_digits a;
     exp_negative := exp_negative a; exponent := exponent a |}.

Definition push_fraction (a : numacc) (d : Z) : numacc :=
  {| negative := negative a; digits := digits a * 10 + d;
     fraction_digits := fraction_digits a + 1;
     exp_negative := exp_negative a; exponent := exponent a |}.

Definition set_exp_sign (a : numacc) (neg : bool) : numacc :=
  {| negative := negative a; digits := digits a;
     fraction_digits := fraction_digits a;
     exp_negative := neg; exponent := exponent a |}.

Definition push_exp (a : numacc) (d : Z) : numacc :=
  {| negative := negative a; digits := digits a;
     fraction_digits := fraction_digits a;
     exp_negative := exp_negative a; exponent := exponent a * 10 + d |}.

(** A literal may end only after a digit of its last part. *)
Definition complete (p : numphase) : bool :=
  match p with
  | NZero | NInt | NFrac | NExpDigits => true
  | NMinus | NDot | NExp | NExpSign => false
  end.

Definition is_e (c : ascii) : bool := (code c =? 101) || (code c =? 69).

(** One character inside a number literal: [Some (Some st)] continues the
    literal, [Some None] means the character does not belong to it, [None]
    is a syntax error. *)
Definition num_step (p : numphase) (a : numacc) (c : ascii)
  : option (option lstate) :=
  match p, digit_of c with
  | NMinus, Some 0 => Some (Some (LNum NZero a))
  | NMinus, Some d => Some (Some (LNum NInt (push_digit a d)))
  | NMinus, None => None
  | NZero, _ =>
      if code c =? 46 then Some (Some (LNum NDot a))
      else if is_e c then Some (Some (LNum NExp a))
      else Some None
  | NInt, Some d => Some (Some (LNum NInt (push_digit a d)))
  | NInt, None =>
      if code c =? 46 then Some (Some (LNum NDot a))
      else if is_e c then Some (Some (LNum NExp a))
      else Some None
  | NDot, Some d => Some (Some (LNum NFrac (push_fraction a d)))
  | NDot, None => None
  | NFrac, Some d => Some (Some (LNum NFrac (push_fraction a d)))
  | NFrac, None => if is_e c then Some (Some (LNum NExp a)) else Some None
  | NExp, Some d => Some (Some (LNum NExpDigits (push_exp a d)))
  | NExp, None =>
      if code c =? 43 then Some (Some (LNum NExpSign (set_exp_sign a false)))
      else if code c =? 45 then Some (Some (LNum NExpSign (set_exp_sign a true)))
      else None
  | NExpSign, Some d => Some (Some (LNum NExpDigits (push_exp a d)))
  | NExpSign, None => None
  | NExpDigits, Some d => Some (Some (LNum NExpDigits (push_exp a d)))
  | NExpDigits, None => Some None
  end.

(** One character between tokens. *)
Definition default_step (c : ascii) : option (list token * lstate) :=
  let n := code c in
  if is_ws c then Some ([], LDefault)
  else if n =? 123 then Some ([TLBrace], LDefault)
  else if n =? 125 then Some ([TRBrace], LDefault)
  else if n =? 91 then Some ([TLBracket], LDefault)
  else if n =? 93 then Some ([TRBracket], LDefault)
  else if n =? 58 then Some ([TColon], LDefault)
  else if n =? 44 then Some ([TComma], LDefault)
  else if n =? 34 then Some ([], LStr [])
  else if n =? 45 then Some ([], LNum NMinus (num0 true 0))
  else if n =? 116 then Some ([], LLit (list_ascii_of_string "rue") (JBool true))
  else if n =? 102 then Some ([], LLit (list_ascii_of_string "alse") (JBool false))
  else if n =? 110 then Some ([], LLit (list_ascii_of_string "ull") JNull)
  else match digit_of c with
       | Some 0 => Some ([], LNum NZero (num0 false 0))
       | Some d => Some ([], LNum NInt (num0 false d))
       | None => None
       end.

Definition escape_char (c : ascii) : option ascii :=
  let n := code c in
  if (n =? 34) || (n =? 92) || (n =? 47) then Some c
  else if n =? 98 then Some (char 8)
  else if n =? 102 then Some (char 12)
  else if n =? 110 then Some (char 10)
  else if n =? 114 then Some (char 13)
  else if n =? 116 then Some (char 9)
  else None.

Definition lex_step (st : lstate) (c : ascii) : option (list token * lstate) :=
  match st with
  | LDefault => default_step c
  | LStr acc =>
      if code c =? 34 then Some ([TScalar (JStr (string_of_rev acc))], LDefault)
      else if code c =? 92 then Some ([], LEsc acc)
      else if code c <? 32 then None
      else Some ([], LStr (c :: acc))
  | LEsc acc =>
      if code c =? 117 then Some ([], LUni acc 0 0)
      else match escape_char c with
           | Some e => Some ([], LStr (e :: acc))
           | None => None
           end
  | LUni acc seen cp =>
      match hex_of c with
      | Some h =>
          let cp' := cp * 16 + h in
          if Nat.eqb seen 3
          then Some ([], LStr (rev (utf8 cp') ++ acc)%list)
          else Some ([], LUni acc (S seen) cp')
      | None => None
      end
  | LLit expected v =>
      match expected with
      | [] => None
      | e :: rest =>
          if Ascii.eqb e c
          then match rest with
               | [] => Some ([TScalar v], LDefault)
               | _ => Some ([], LLit rest v)
               end
          else None
      end
  | LNum p a =>
      match num_step p a c with
      | None => None
      | Some (Some st') => Some ([], st')
      | Some None =>
          if complete p
          then match default_step c with
               | Some (toks, st') => Some (TScalar (number_value a) :: toks, st')
               | None => None
               end
          else None
      end
  end.

Definition lex_end (st : lstate) : option (list token) :=
  match st with
  | LDefault => Some []
  | LNum p a => if complete p then Some [TScalar (number_value a)] else None
  | _ => None
  end.

Fixpoint lex (st : lstate) (text : string) : option (list token) :=
  match text with
  | EmptyString => lex_end st
  | String c rest =>
      match lex_step st c with
      | None => None
      | Some (toks, st') =>
          match lex st' rest with
          | None => None
          | Some more => Some (toks ++ more)%list
          end
      end
  end.

(** ** Objects under construction *)

(** A property key that is an array index (a canonical decimal numeral
    below 2^32 - 1): such keys are enumerated first, in ascending order,
    before the other keys in creation order. *)
Fixpoint numeral (s : string) (acc : Z) : option Z :=
  match s with
  | EmptyString => Some acc
  | String c rest =>
      match digit_of c with
      | Some d => numeral rest (acc * 10 + d)
      | None => None
      end
  end.

Definition array_index (k : string) : option Z :=
  match k with
  | EmptyString => None
  | String c rest =>
      if (code c =? 48) && negb (String.eqb rest EmptyString) then None
      else if (10 <? Z.of_nat (String.length k)) then None
      else match numeral k 0 with
           | Some n => if n <? 4294967295 then Some n else None
           | None => None
           end
  end.

Fixpoint replace (k : string) (v : value) (props : list (string * value))
  : list (string * value) :=
  match props with
  | [] => []
  | (k', v') :: rest =>
      if String.eqb k' k then (k', v) :: rest else (k', v') :: replace k v rest
  end.

Fixpoint insert_index (n : Z) (k : string) (v : value)
         (props : list (string * value)) : list (string * value) :=
  match props with
  | [] => [(k, v)]
  | (k', v') :: rest =>
      match array_index k' with
      | Some n' =>
          if n' <? n then (k', v') :: insert_index n k v rest
          else (k, v) :: props
      | None => (k, v) :: props
      end
  end.

(** [CreateDataProperty]: a repeated key keeps its place and takes the
    later value. *)
Definition define (k : string) (v : value) (props : list (string * value))
  : list (string * value) :=
  match JS.lookup k props with
  | Some _ => replace k v props
  | None =>
      match array_index k with
      | Some n => insert_index n k v props
      | None => (props ++ [(k, v)])%list
      end
  end.

(** ** Recogniser *)

(** The enclosing containers of the value being read. *)
Inductive frame : Type :=
| InArr (rev_items : list value)
| InObj (props : list (string * value)) (key : string).

Inductive mode : Type :=
| MValue
| MArrStart
| MArrNext (rev_items : list value)
| MObjStart
| MObjKey (props : list (string * value))
| MObjColon (props : list (string * value)) (key : string)
| MObjNext (props : list (string * value))
| MDone (v : value).

Definition pstate : Type := (list frame * mode)%type.

(** A finished value goes to the innermost open container. *)
Definition reduce (stack : list frame) (v : value) : pstate :=
  match stack with
  | [] => ([], MDone v)
  | InArr acc :: stack' => (stack', MArrNext (v :: acc))
  | InObj props k :: stack' => (stack', MObjNext (define k v props))
  end.

Definition value_start (stack : list frame) (t : token) : option pstate :=
  match t with
  | TScalar v => Some (reduce stack v)
  | TLBracket => Some (stack, MArrStart)
  | TLBrace => Some (stack, MObjStart)
  | _ => None
  end.

Definition key_start (stack : list frame) (props : list (string * value))
           (t : token) : option pstate :=
  match t with
  | TScalar (JStr k) => Some (stack, MObjColon props k)
  | _ => None
  end.

Definition parse_step (st : pstate) (t : token) : option pstate :=
  let (stack, m) := st in
  match m with
  | MValue => value_start stack t
  | MArrStart =>
      match t with
      | TRBracket => Some (reduce stack (JArr []))
      | _ => value_start (InArr [] :: stack) t
      end
  | MArrNext acc =>
      match t with
      | TComma => Some (InArr acc :: stack, MValue)
      | TRBracket => Some (reduce stack (JArr (rev acc)))
      | _ => None
      end
  | MObjStart =>
      match t with
      | TRBrace => Some (reduce stack (JObj []))
      | _ => key_start stack [] t
      end
  | MObjKey props => key_start stack props t
  | MObjColon props k =>
      match t with
      | TColon => Some (InObj props k :: stack, MValue)
      | _ => None
      end
  | MObjNext props =>
      match t with
      | TComma => Some (stack, MObjKey props)
      | TRBrace => Some (reduce stack (JObj props))
      | _ => None
      end
  | MDone _ => None
  end.

Fixpoint parse_tokens (st : pstate) (toks : list token) : option value :=
  match toks with
  | [] => match st with
          | ([], MDone v) => Some v
          | _ => None
          end
  | t :: rest =>
      match parse_step st t with
      | Some st' => parse_tokens st' rest
      | None => None
      end
  end.

(** [JSON.parse(text)]: [None] stands for the [SyntaxError]. *)
Definition parse (text : string) : option value :=
  match lex LDefault text with
  | Some toks => parse_tokens ([], MValue) toks
  | None => None
  end.

End JSON.


(* ================================================================== *)
(** * Rendering: [jsonToMarkdown] and the results view *)
(* ================================================================== *)

(** The page exists in two revisions.  [Untyped] is
    [frontend/unto/src/app/page.tsx], where [final_output] is [any]: it
    tests [final_output.value] and [final_output?.summary] for truthiness
    and polls every 7500 ms.  [Typed] is the revision that declares
    [TravelData]: it tests ['value' in final_output] and
    ['summary' in final_output] and polls every 20000 ms. *)
Inductive revision : Type := Untyped | Typed.

Section Rendering.

Variable host : Host.

(** ** Coercions used by template literals and [+] *)

(** [String(v)] / [`${v}`]. *)
Fixpoint ToString (v : value) : string :=
  match v with
  | JUndefined => "undefined"
  | JNull => "null"
  | JBool b => if b then "true" else "false"
  | JNum q => Number_toString host q
  | JNaN => "NaN"
  | JStr s => s
  | JArr items =>
      join "," (map (fun x => if JS.is_nullish x then EmptyString else ToString x) items)
  | JObj _ => "[object Object]"
  end.

Definition ToPrimitive (v : value) : value :=
  match v with
  | JArr _ | JObj _ => JStr (ToString v)
  | _ => v
  end.

(** [ToNumber] on a primitive that is not a string; [None] is [NaN]. *)
Definition ToNumber (v : value) : option Q :=
  match v with
  | JNull => Some 0%Q
  | JBool b => Some (if b then 1%Q else 0%Q)
  | JNum q => Some q
  | _ => None
  end.

(** [a + b]: concatenation as soon as one operand is a string after
    [ToPrimitive], numeric addition otherwise. *)
Definition add (a b : value) : value :=
  let pa := ToPrimitive a in
  let pb := ToPrimitive b in
  match pa, pb with
  | JStr _, _ | _, JStr _ => JStr (ToString pa ++ ToString pb)
  | _, _ =>
      match ToNumber pa, ToNumber pb with
      | Some x, Some y => JNum (Qred (x + y))
      | _, _ => JNaN
      end
  end.

(** [v?.key]. *)
Definition opt_get (v : value) (key : string) : value :=
  if JS.is_nullish v then JUndefined else JS.get v key.

(** ** [jsonToMarkdown] *)

(** The inner [formatValue(value, depth)].  Its last line,
    [return String(value)], needs a value that is none of the kinds
    tested before it (a function, a symbol, a bigint): JSON has none. *)
Fixpoint formatValue (value : value) (depth : nat) : string :=
  let indent := repeat_string "  " depth in
  match value with
  | JNull | JUndefined => "null"
  | JStr s => s
  | JNum q => Number_toString host q
  | JNaN => "NaN"
  | JBool b => if b then "true" else "false"
  | JArr items =>
      match items with
      | [] => "[]"
      | _ => join newline
               (map (fun item => indent ++ "- " ++ formatValue item (S depth)) items)
      end
  | JObj entries =>
      match entries with
      | [] => "{}"
      | _ => join (newline ++ newline)
               (map (fun '(key, val) =>
                       if String.eqb (JS.typeof val) "object"
                          && negb (JS.is_null val) && negb (JS.isArray val)
                       then indent ++ "**" ++ key ++ ":**" ++ newline
                                   ++ formatValue val (S depth)
                       else indent ++ "**" ++ key ++ ":** "
                                   ++ formatValue val (S depth)) entries)
      end
  end.

Definition jsonToMarkdown (data : value) : string :=
  if negb (JS.truthy data) then EmptyString
  else match data with
       | JStr s => s
       | _ => formatValue data 0
       end.

(** ** The results view (case 4 of [renderStep]) *)

(** The guard of the second branch of the normaliser.  [Untyped] reads
    [final_output.value] (with [?.] in the summary closure) and tests the
    result; [Typed] tests
    [final_output && typeof final_output === 'object' && 'value' in final_output].
    Both closures sit under [planState.final_output && (...)], so the plain
    access of [Untyped] never meets [null] or [undefined]. *)
Definition value_guard (r : revision) (final_output : value) : bool :=
  match r with
  | Untyped => JS.truthy (opt_get final_output "value")
  | Typed =>
      JS.truthy final_output
      && String.eqb (JS.typeof final_output) "object"
      && JS.has "value" final_output
  end.

(** The first closure of the view up to its [if (!travelData) return null]:
    the content of [travelData], [JNull] while nothing was assigned. *)
Definition travelData (r : revision) (final_output : value) : value :=
  match final_output with
  | JStr s =>
      match JSON.parse s with
      | Some parsed => parsed
      | None => JNull
      end
  | _ =>
      if value_guard r final_output then
        match JS.get final_output "value" with
        | JStr s =>
            match JSON.parse s with
            | Some parsed => parsed
            | None => JNull
            end
        | v => v
        end
      else final_output
  end.

(** [(travelData.departureFlight?.price || 0) +
     (travelData.returnFlight?.price || 0) +
     (travelData.accommodation?.price || 0)]. *)
Definition total (travelData : value) : value :=
  add (add (JS.or (opt_get (JS.get travelData "departureFlight") "price") (JNum 0))
           (JS.or (opt_get (JS.get travelData "returnFlight") "price") (JNum 0)))
      (JS.or (opt_get (JS.get travelData "accommodation") "price") (JNum 0)).



(** [`${x.price?.toLocaleString()}`]. *)
Definition price_text (price : value) : string :=
  if JS.is_nullish price then "undefined" else toLocaleString host price.

Definition flight_lines (title : string) (flight : value) : string :=
  "**" ++ title ++ ":** " ++ ToString (JS.get flight "Airline") ++ newline
  ++ "- Date: " ++ toLocaleDateString host (JS.get flight "departTime") ++ newline
  ++ "- Price: ₹" ++ price_text (JS.get flight "price") ++ newline ++ newline.

Definition accommodation_lines (a : value) : string :=
  "**Accommodation:** " ++ ToString (JS.get a "HotelName") ++ newline
  ++ "- Location: " ++ ToString (JS.get a "exact_location") ++ newline
  ++ "- Duration: " ++ toLocaleDateString host (JS.get a "checkInTime")
  ++ " - " ++ toLocaleDateString host (JS.get a "checkOutTime") ++ newline
  ++ "- Price: ₹" ++ price_text (JS.get a "price") ++ newline ++ newline.

(** The markdown assembled from a truthy [travelData]. *)
Definition generated_summary (travelData : value) : string :=
  let section (key : string) (lines : value -> string) :=
    if JS.truthy (JS.get travelData key) then lines (JS.get travelData key)
    else EmptyString in
  "## Travel Plan Overview" ++ newline ++ newline
  ++ section "departureFlight" (flight_lines "Departure Flight")
  ++ section "returnFlight" (flight_lines "Return Flight")
  ++ section "accommodation" accommodation_lines
  ++ "**Total Trip Cost:** ₹" ++ toLocaleString host (total travelData).

Definition summary_guard (r : revision) (final_output : value) : bool :=
  match r with
  | Untyped => JS.truthy (opt_get final_output "summary")
  | Typed =>
      String.eqb (JS.typeof final_output) "object"
      && negb (JS.is_null final_output)
      && JS.has "summary" final_output
  end.

(** The second closure of the view: the child handed to [ReactMarkdown]
    in the summary panel. *)
Definition summary (r : revision) (final_output : value) : value :=
  if summary_guard r final_output then JS.get final_output "summary"
  else
    let generate (travelData : value) :=
      if negb (JS.truthy travelData) then JStr (jsonToMarkdown final_output)
      else JStr (generated_summary travelData) in
    match final_output with
    | JStr s =>
        match JSON.parse s with
        | Some parsed => generate parsed
        | None => JStr (jsonToMarkdown final_output)
        end
    | _ =>
        if value_guard r final_output then
          match JS.get final_output "value" with
          | JStr s =>
              match JSON.parse s with
              | Some parsed => generate parsed
              | None => JStr s
              end
          | v => generate v
          end
        else generate JNull
    end.

Definition failure_fallback (r : revision) : string :=
  match r with
  | Untyped => "An error occurred while planning your trip."
  | Typed => "Something went wrong while we were cooking your trip 😔"
  end.

(** What case 4 puts on screen: the cards built from a truthy
    [travelData], the summary panel, the "Plan Details" fallback and the
    failure message.  A field is [None] when its element is not rendered. *)
Record view : Type := {
  cards : option value;
  trip_summary : option value;
  plan_details : option string;
  failure : option value
}.

Definition results_view (r : revision) (planState : value) : view :=
  let state := opt_get planState "state" in
  let final_output := JS.get planState "final_output" in
  let complete := JS.is_string state "COMPLETE" in
  let shown := complete && JS.truthy final_output in
  {| cards :=
       if shown && JS.truthy (travelData r final_output)
       then Some (travelData r final_output) else None;
     trip_summary := if shown then Some (summary r final_output) else None;
     plan_details :=
       if complete && negb (JS.truthy final_output)
       then Some (jsonToMarkdown planState) else None;
     failure :=
       if JS.is_string state "FAILED"
       then Some (JS.or (JS.get planState "error") (JStr (failure_fallback r)))
       else None |}.

End Rendering.

(* ================================================================== *)
(** * The component: wizard state and plan poller *)
(* ================================================================== *)

(** The two revisions share this code; they differ in the base URL of the
    service and in the polling period. *)

Record TravelFormData : Type := {
  origin : string;
  destination : string;
  departure_date : string;
  return_date : string;
  cabin_class : string;
  passengers : Z
}.

Definition steps : list string :=
  ["destination"; "dates"; "details"; "processing"; "results"].

Definition steps_length : Z := Z.of_nat (List.length steps).

(** The argument of [useState] for [formData], and of the [setFormData]
    call of the "Plan Another Trip" button. *)
Definition default_formData : TravelFormData :=
  {| origin := EmptyString; destination := EmptyString;
     departure_date := EmptyString; return_date := EmptyString;
     cabin_class := "economy"; passengers := 1 |}.

(** The identifier [setInterval] returns: a positive integer, hence truthy. *)
Definition handle : Type := positive.

(** The four [useState] slots.  [planState] is [JNull] for [null]. *)
Record State : Type := {
  currentStep : Z;
  formData : TravelFormData;
  planState : value;
  pollingInterval : option handle
}.

Definition initial_state : State :=
  {| currentStep := 0; formData := default_formData;
     planState := JNull; pollingInterval := None |}.

Inductive request : Type :=
| PostPlanStart (body : TravelFormData)   (* POST {base}/plan/start *)
| GetPlanState (planRunId : value).        (* GET {base}/plan/{planRunId}/state *)

Inductive response : Type :=
| NetworkError                              (* the promise of [fetch] rejects *)
| Response (status : Z) (body : string).

(** [response.ok]. *)
Definition ok (status : Z) : bool := (200 <=? status) && (status <=? 299).

(** Every function of the component body is re-created by each render and
    closes over the [useState] values of that render.  What is still to run
    of an [async] function when its [fetch] settles therefore carries the
    render it was created in. *)
Inductive continuation : Type :=
| StartPlanningK (render : State)
| PollPlanStateK (render : State) (planRunId : value).

(** The callback given to [setInterval]:
    [() => { pollPlanState(planRunId) }], with [pollPlanState] that of the
    render in which [startPolling] ran. *)
Record Interval : Type := {
  interval_render : State;
  interval_planRunId : value
}.

(** The component together with the part of the browser it acts on.
    [console] keeps the message of each [console.error]; the informational
    [console.log] calls are left out. *)
Record World : Type := {
  state : State;
  intervals : list (handle * Interval);
  next_handle : handle;
  requests : list request;
  pending : list (nat * continuation);
  console : list string
}.

Definition initial_world : World :=
  {| state := initial_state; intervals := []; next_handle := 1%positive;
     requests := []; pending := []; console := [] |}.

(** ** State setters and browser primitives *)

Definition with_state (f : State -> State) (w : World) : World :=
  {| state := f (state w); intervals := intervals w;
     next_handle := next_handle w; requests := requests w;
     pending := pending w; console := console w |}.

Definition setCurrentStep (n : Z) : World -> World :=
  with_state (fun s =>
    {| currentStep := n; formData := formData s;
       planState := planState s; pollingInterval := pollingInterval s |}).

Definition setFormData (d : TravelFormData) : World -> World :=
  with_state (fun s =>
    {| currentStep := currentStep s; formData := d;
       planState := planState s; pollingInterval := pollingInterval s |}).

Definition setPlanState (p : value) : World -> World :=
  with_state (fun s =>
    {| currentStep := currentStep s; formData := formData s;
       planState := p; pollingInterval := pollingInterval s |}).

Definition setPollingInterval (i : option handle) : World -> World :=
  with_state (fun s =>
    {| currentStep := currentStep s; formData := formData s;
       planState := planState s; pollingInterval := i |}).

(** [clearInterval(h)]; clearing a handle that is not active does nothing. *)
Definition clearInterval (h : handle) (w : World) : World :=
  {| state := state w;
     intervals := filter (fun e => negb (Pos.eqb (fst e) h)) (intervals w);
     next_handle := next_handle w; requests := requests w;
     pending := pending w; console := console w |}.

(** [setInterval(callback, period)]. *)
Definition setInterval (cb : Interval) (w : World) : handle * World :=
  (next_handle w,
   {| state := state w;
      intervals := (intervals w ++ [(next_handle w, cb)])%list;
      next_handle := Pos.succ (next_handle w); requests := requests w;
      pending := pending w; console := console w |}).

(** [await fetch(...)]: the request goes out, the rest of the function
    waits for the response. *)
Definition fetch (rq : request) (k : continuation) (w : World) : World :=
  {| state := state w; intervals := intervals w;
     next_handle := next_handle w;
     requests := (requests w ++ [rq])%list;
     pending := (pending w ++ [(List.length (requests w), k)])%list;
     console := console w |}.

Definition console_error (msg : string) (w : World) : World :=
  {| state := state w; intervals := intervals w;
     next_handle := next_handle w; requests := requests w;
     pending := pending w; console := (console w ++ [msg])%list |}.

(** The period given to [setInterval], in milliseconds. *)
Definition polling_period (r : revision) : Z :=
  match r with Untyped => 7500 | Typed => 20000 end.

(** ** The functions of the component body

    Each takes the render that created it: [render] holds the values its
    free variables [currentStep], [formData], [planState] and
    [pollingInterval] denote. *)

Definition nextStep (render : State) (w : World) : World :=
  if currentStep render <? steps_length - 1
  then setCurrentStep (currentStep render + 1) w
  else w.

Definition prevStep (render : State) (w : World) : World :=
  if 0 <? currentStep render
  then setCurrentStep (currentStep render - 1) w
  else w.

(** [state.state === "COMPLETE" || state.state === "FAILED"]. *)
Definition is_terminal (st : value) : bool :=
  JS.is_string (JS.get st "state") "COMPLETE"
  || JS.is_string (JS.get st "state") "FAILED".

(** [pollPlanState] up to its [await fetch(...)]. *)
Definition pollPlanState (render : State) (planRunId : value) (w : World) : World :=
  fetch (GetPlanState planRunId) (PollPlanStateK render planRunId) w.

(** [pollPlanState] from the response on.  A rejected [fetch], a body that
    is not JSON and the body [null] (whose [status_message] cannot be read)
    all land in the [catch]. *)
Definition pollPlanState_resume (render : State) (planRunId : value)
           (resp : response) (w : World) : World :=
  match resp with
  | NetworkError => console_error "❌ Error polling plan state:" w
  | Response status body =>
      if negb (ok status) then
        if status =? 404
        then console_error "❌ Plan not found:" w
        else console_error "❌ Failed to fetch plan state:" w
      else
        match JSON.parse body with
        | None => console_error "❌ Error polling plan state:" w
        | Some st =>
            if JS.is_nullish st
            then console_error "❌ Error polling plan state:" w
            else
              let w1 := setPlanState st w in
              if is_terminal st then
                let w2 :=
                  match pollingInterval render with
                  | Some h => setPollingInterval None (clearInterval h w1)
                  | None => w1
                  end in
                setCurrentStep 4 w2
              else w1
        end
  end.

Definition startPolling (render : State) (planRunId : value) (w : World) : World :=
  let w1 :=
    match pollingInterval render with
    | Some h => clearInterval h w
    | None => w
    end in
  let w2 := pollPlanState render planRunId w1 in
  let (interval, w3) :=
    setInterval {| interval_render := render; interval_planRunId := planRunId |} w2 in
  setPollingInterval (Some interval) w3.

(** [startPlanning] up to its [await fetch(...)]; [processedFormData]
    spreads [formData] and re-assigns two of its own fields. *)
Definition startPlanning (render : State) (w : World) : World :=
  fetch (PostPlanStart (formData render)) (StartPlanningK render) w.

Definition startPlanning_catch (w : World) : World :=
  console_error "📊 Error details:" (console_error "❌ Error starting plan:" w).

(** [startPlanning] from the response on.  [setPlanState(initialState)]
    precedes the read of [initialState.plan_run_id], which throws on
    [null]. *)
Definition startPlanning_resume (render : State) (resp : response) (w : World) : World :=
  match resp with
  | NetworkError => startPlanning_catch w
  | Response status body =>
      if negb (ok status) then
        startPlanning_catch (console_error "❌ API Error response:" w)
      else
        match JSON.parse body with
        | None => startPlanning_catch w
        | Some initialState =>
            let w1 := setPlanState initialState w in
            if JS.is_nullish initialState then startPlanning_catch w1
            else
              let w2 := startPolling render (JS.get initialState "plan_run_id") w1 in
              setCurrentStep 3 w2
        end
  end.

(** The [onClick] of the "Plan Another Trip" button. *)
Definition planAnotherTrip (render : State) (w : World) : World :=
  let w1 :=
    match pollingInterval render with
    | Some h => setPollingInterval None (clearInterval h w)
    | None => w
    end in
  setFormData default_formData (setPlanState JNull (setCurrentStep 0 w1)).

(** The cleanup of
    [useEffect(() => () => { if (pollingInterval) clearInterval(pollingInterval) }, [pollingInterval])]:
    when a commit changes [pollingInterval], the cleanup created with the
    previous value runs. *)
Definition same_handle (a b : option handle) : bool :=
  match a, b with
  | None, None => true
  | Some x, Some y => Pos.eqb x y
  | _, _ => false
  end.

Definition commit_effects (before : State) (w : World) : World :=
  if same_handle (pollingInterval before) (pollingInterval (state w)) then w
  else match pollingInterval before with
       | Some h => clearInterval h w
       | None => w
       end.

(** ** Events *)

Inductive button : Type := Continue | Back | StartPlanning | PlanAnotherTrip.

Inductive edit : Type :=
| EditOrigin (v : string)
| EditDestination (v : string)
| EditDepartureDate (v : string)
| EditReturnDate (v : string)
| SelectCabinClass (v : string)
| SelectPassengers (n : Z).

Inductive event : Type :=
| Click (b : button)
| Change (e : edit)
| Tick (h : handle)                  (* the period of interval [h] elapses *)
| Settle (n : nat) (r : response).   (* the [n]-th request gets its answer *)

Definition nonempty (s : string) : bool := negb (String.eqb s EmptyString).

(** Which buttons [renderStep] puts on screen, enabled, at each step. *)
Definition button_enabled (s : State) (b : button) : bool :=
  match b with
  | Continue =>
      ((currentStep s =? 0)
       && nonempty (origin (formData s)) && nonempty (destination (formData s)))
      || ((currentStep s =? 1)
          && nonempty (departure_date (formData s))
          && nonempty (return_date (formData s)))
  | Back => (currentStep s =? 1) || (currentStep s =? 2)
  | StartPlanning => currentStep s =? 2
  | PlanAnotherTrip => currentStep s =? 4
  end.

Definition cabin_classes : list string :=
  ["economy"; "premiumeconomy"; "business"; "first"].

Definition edit_enabled (s : State) (e : edit) : bool :=
  match e with
  | EditOrigin _ | EditDestination _ => currentStep s =? 0
  | EditDepartureDate _ | EditReturnDate _ => currentStep s =? 1
  | SelectCabinClass v =>
      (currentStep s =? 2) && existsb (String.eqb v) cabin_classes
  | SelectPassengers n => (currentStep s =? 2) && (1 <=? n) && (n <=? 8)
  end.

Definition onClick (b : button) (render : State) : World -> World :=
  match b with
  | Continue => nextStep render
  | Back => prevStep render
  | StartPlanning => startPlanning render
  | PlanAnotherTrip => planAnotherTrip render
  end.

(** [setFormData({ ...formData, field: v })]. *)
Definition onChange (e : edit) (render : State) : World -> World :=
  let d := formData render in
  match e with
  | EditOrigin v =>
      setFormData {| origin := v; destination := destination d;
                     departure_date := departure_date d; return_date := return_date d;
                     cabin_class := cabin_class d; passengers := passengers d |}
  | EditDestination v =>
      setFormData {| origin := origin d; destination := v;
                     departure_date := departure_date d; return_date := return_date d;
                     cabin_class := cabin_class d; passengers := passengers d |}
  | EditDepartureDate v =>
      setFormData {| origin := origin d; destination := destination d;
                     departure_date := v; return_date := return_date d;
                     cabin_class := cabin_class d; passengers := passengers d |}
  | EditReturnDate v =>
      setFormData {| origin := origin d; destination := destination d;
                     departure_date := departure_date d; return_date := v;
                     cabin_class := cabin_class d; passengers := passengers d |}
  | SelectCabinClass v =>
      setFormData {| origin := origin d; destination := destination d;
                     departure_date := departure_date d; return_date := return_date d;
                     cabin_class := v; passengers := passengers d |}
  | SelectPassengers n =>
      setFormData {| origin := origin d; destination := destination d;
                     departure_date := departure_date d; return_date := return_date d;
                     cabin_class := cabin_class d; passengers := n |}
  end.

Fixpoint find_interval (h : handle) (l : list (handle * Interval)) : option Interval :=
  match l with
  | [] => None
  | (h', cb) :: rest => if Pos.eqb h' h then Some cb else find_interval h rest
  end.

Fixpoint find_pending (n : nat) (l : list (nat * continuation)) : option continuation :=
  match l with
  | [] => None
  | (n', k) :: rest => if Nat.eqb n' n then Some k else find_pending n rest
  end.

Definition settled (n : nat) (w : World) : World :=
  {| state := state w; intervals := intervals w;
     next_handle := next_handle w; requests := requests w;
     pending := filter (fun e => negb (Nat.eqb (fst e) n)) (pending w);
     console := console w |}.

Definition resume (k : continuation) (resp : response) : World -> World :=
  match k with
  | StartPlanningK render => startPlanning_resume render resp
  | PollPlanStateK render planRunId => pollPlanState_resume render planRunId resp
  end.

Definition is_some {A : Type} (o : option A) : bool :=
  match o with Some _ => true | None => false end.

(** An event can happen when its button or field is on screen and enabled,
    its interval is active, its request is in flight. *)
Definition enabled (w : World) (e : event) : bool :=
  match e with
  | Click b => button_enabled (state w) b
  | Change ed => edit_enabled (state w) ed
  | Tick h => is_some (find_interval h (intervals w))
  | Settle n _ => is_some (find_pending n (pending w))
  end.

(** The code an event runs.  A DOM handler is the one of the latest render;
    an interval callback and the rest of an [async] function are those of
    the render that created them. *)
Definition handle_event (e : event) (w : World) : World :=
  match e with
  | Click b => onClick b (state w) w
  | Change ed => onChange ed (state w) w
  | Tick h =>
      match find_interval h (intervals w) with
      | Some cb => pollPlanState (interval_render cb) (interval_planRunId cb) w
      | None => w
      end
  | Settle n resp =>
      match find_pending n (pending w) with
      | Some k => resume k resp (settled n w)
      | None => w
      end
  end.

(** One turn of the event loop: the handler, then the re-render and its
    effect cleanup.  The render is taken to succeed: a render that throws
    (an object where the view prints a child) takes the component off the
    page, which is [unmount] below and not a case of [step]. *)
Definition step (w : World) (e : event) : World :=
  commit_effects (state w) (handle_event e w).

Definition run (w : World) (trace : list event) : World :=
  fold_left step trace w.

Inductive reachable : World -> Prop :=
| reach_init : reachable initial_world
| reach_step (w : World) (e : event) :
    reachable w -> enabled w e = true -> reachable (step w e).

(** Apostrophes stand for double quotes in the JSON texts below. *)
Definition dq (s : string) : string :=
  string_of_list_ascii
    (map (fun c => if Ascii.eqb c "'"%char then ascii_of_nat 34 else c)
         (list_ascii_of_string s)).


(** ** The invariant *)

Definition continuation_render (k : continuation) : State :=
  match k with
  | StartPlanningK render => render
  | PollPlanStateK render _ => render
  end.

(** What holds in every world the component can reach.  The closures that
    run later (interval callbacks, the rest of an [async] function) all come
    from a render of step 2, where no interval exists yet; the only active
    interval is the one held in [pollingInterval]. *)
Record invariant (w : World) : Prop := {
  inv_step : 0 <= currentStep (state w) <= 4;
  inv_idle : currentStep (state w) <= 2 -> pollingInterval (state w) = None;
  inv_pending :
    forall n k, In (n, k) (pending w) ->
                pollingInterval (continuation_render k) = None;
  inv_callbacks :
    forall h cb, In (h, cb) (intervals w) ->
                 pollingInterval (interval_render cb) = None;
  inv_owned :
    forall h cb, In (h, cb) (intervals w) -> pollingInterval (state w) = Some h;
  inv_fresh :
    forall h, pollingInterval (state w) = Some h -> (h < next_handle w)%positive
}.

(** ** Example inputs *)


Definition hotel_text : string :=
  dq "{'accommodation':{'HotelName':'X','price':500}}".

(** A run of the wizard up to the click on "Start Planning", the answer to
    the submission, and the answer [COMPLETE] to the immediate poll. *)
Definition filled_form : TravelFormData :=
  {| origin := "Pune"; destination := "Goa";
     departure_date := "2025-03-15"; return_date := "2025-03-20";
     cabin_class := "economy"; passengers := 1 |}.

Definition submit_trace : list event :=
  [Change (EditOrigin "Pune"); Change (EditDestination "Goa"); Click Continue;
   Change (EditDepartureDate "2025-03-15"); Change (EditReturnDate "2025-03-20");
   Click Continue; Click StartPlanning].

Definition started_body : string :=
  dq "{'plan_run_id':'run-1','state':'PREPARING','current_step_index':0,'outputs':{}}".

Definition complete_body : string :=
  dq "{'plan_run_id':'run-1','state':'COMPLETE','current_step_index':3,'outputs':{},'final_output':'Trip booked!'}".

Definition polling_trace : list event :=
  (submit_trace ++ [Settle 0 (Response 200 started_body)])%list.

Definition complete_trace : list event :=
  (polling_trace ++ [Settle 1 (Response 200 complete_body)])%list.

Definition submitted_world : World := run initial_world submit_trace.
Definition polling_world : World := run initial_world polling_trace.
Definition complete_world : World := run initial_world complete_trace.


Definition null_value_output : value := JObj [("value", JNull)].

Definition summarised_output : value :=
  JObj [("value", JStr "oops"); ("summary", JStr "All set")].

Definition empty_summary_output : value :=
  JObj [("value", JStr "oops"); ("summary", JStr EmptyString)].

(** Every event of the trace can happen when its turn comes. *)
Fixpoint feasible (w : World) (trace : list event) : bool :=
  match trace with
  | [] => true
  | e :: rest => enabled w e && feasible (step w e) rest
  end.

(** A host used to run the definitions on examples. *)
Definition sample_host : Host :=
  {| Number_toString := fun _ => "1";
     toLocaleString := fun _ => "1";
     toLocaleDateString := fun _ => "1/1/2025" |}.

(* ================================================================== *)
(** * Properties of the renderer and of the normaliser *)
(* ================================================================== *)

(** ** The processing view (case 3 of [renderStep]) *)

Section Processing.

Variable host : Host.

(** What case 3 shows under its heading: nothing while [planState] is
    falsy; otherwise the [state] after "Status:" and, when the state is
    IN_PROGRESS, the number [planState.current_step_index + 1] of the
    "Step ... in progress" line. *)
Definition processing_view (planState : value) : option (value * option value) :=
  if JS.truthy planState then
    Some (JS.get planState "state",
          if JS.is_string (JS.get planState "state") "IN_PROGRESS"
          then Some (add host (JS.get planState "current_step_index") (JNum 1))
          else None)
  else None.

End Processing.

(** ** The nested calls of [formatValue] *)

(** How deep a value nests: 0 for a scalar and for an empty array or
    object, one more than its deepest member otherwise. *)
Fixpoint height (v : value) : nat :=
  match v with
  | JArr items =>
      match items with
      | [] => O
      | _ => S (list_max (map height items))
      end
  | JObj entries =>
      match entries with
      | [] => O
      | _ => S (list_max (map (fun '(_, val) => height val) entries))
      end
  | _ => O
  end.

(** [items.map(f)] when a call of [f] can fail: a failure anywhere is the
    failure of the whole. *)
Fixpoint all_some {A : Type} (l : list (option A)) : option (list A) :=
  match l with
  | [] => Some []
  | None :: _ => None
  | Some a :: rest =>
      match all_some rest with
      | Some others => Some (a :: others)
      | None => None
      end
  end.

Section CallDepth.

Variable host : Host.

(** [formatValue] as an engine with a bounded call stack runs it: at most
    [calls] activations of [formatValue] are open at once, and the call
    that would open one more fails ([None]; the RangeError of the engine).
    The recursion is the source's: one call per array item and per object
    entry, on that member, with [depth + 1]. *)
Fixpoint formatValue_within (calls : nat) (value : value) (depth : nat)
  : option string :=
  match calls with
  | O => None
  | S calls' =>
      let indent := repeat_string "  " depth in
      match value with
      | JNull | JUndefined => Some "null"
      | JStr s => Some s
      | JNum q => Some (Number_toString host q)
      | JNaN => Some "NaN"
      | JBool b => Some (if b then "true" else "false")
      | JArr items =>
          match items with
          | [] => Some "[]"
          | _ =>
              option_map (join newline)
                (all_some
                   (map (fun item =>
                           option_map (fun text => indent ++ "- " ++ text)
                             (formatValue_within calls' item (S depth)))
                        items))
          end
      | JObj entries =>
          match entries with
          | [] => Some "{}"
          | _ =>
              option_map (join (newline ++ newline))
                (all_some
                   (map (fun '(key, val) =>
                           option_map
                             (fun text =>
                                if String.eqb (JS.typeof val) "object"
                                   && negb (JS.is_null val) && negb (JS.isArray val)
                                then indent ++ "**" ++ key ++ ":**" ++ newline ++ text
                                else indent ++ "**" ++ key ++ ":** " ++ text)
                             (formatValue_within calls' val (S depth)))
                        entries))
          end
      end
  end.

(** [jsonToMarkdown] over it: the two early returns call nothing. *)
Definition jsonToMarkdown_within (calls : nat) (data : value) : option string :=
  if negb (JS.truthy data) then Some EmptyString
  else match data with
       | JStr s => Some s
       | _ => formatValue_within calls data 0
       end.

End CallDepth.

(** ** The progress indicator and the teardown *)

(** [steps.slice(0, -1)]: the steps that get an icon. *)
Definition icon_steps : list string := removelast steps.

(** [steps.slice(0, -1).map((step, index) => ... index <= currentStep ...)]:
    which icons are drawn highlighted. *)
Definition highlighted (currentStep : Z) : list bool :=
  map (fun index => Z.of_nat index <=? currentStep)
      (seq 0 (List.length icon_steps)).

(** [Math.min((currentStep / (steps.length - 2)) * 100, 100)], the width of
    the bar in percent, computed in the rationals. *)
Definition progress_width (currentStep : Z) : Q :=
  let x := (Qmult (Qdiv (inject_Z currentStep) (inject_Z (steps_length - 2))) 100) in
  if Qle_bool x 100 then x else 100%Q.


(** ** What the wizard lets through *)

(** A form as the three input steps let it reach the submission. *)
Definition valid_form (d : TravelFormData) : bool :=
  nonempty (origin d) && nonempty (destination d)
  && nonempty (departure_date d) && nonempty (return_date d)
  && existsb (String.eqb (cabin_class d)) cabin_classes
  && (1 <=? passengers d) && (passengers d <=? 8).

(** The form along the wizard: the selects always hold one of their items,
    the cities are filled from step 1 on and the dates at step 2, and every
    submission sent so far carried a valid form. *)
Record form_invariant (w : World) : Prop := {
  form_cabin :
    existsb (String.eqb (cabin_class (formData (state w)))) cabin_classes = true;
  form_passengers : 1 <= passengers (formData (state w)) <= 8;
  form_cities :
    currentStep (state w) = 1 \/ currentStep (state w) = 2 ->
    nonempty (origin (formData (state w))) = true
    /\ nonempty (destination (formData (state w))) = true;
  form_dates :
    currentStep (state w) = 2 ->
    nonempty (departure_date (formData (state w))) = true
    /\ nonempty (return_date (formData (state w))) = true;
  form_sent :
    forall body, In (PostPlanStart body) (requests w) -> valid_form body = true
}.

(** The requests in flight are requests that were sent. *)
Definition pending_sent (w : World) : Prop :=
  forall n k, In (n, k) (pending w) -> (n < List.length (requests w))%nat.

(** Worlds used as examples: a double click on "Start Planning", and a
    plan that failed. *)
Definition double_click_world : World :=
  run initial_world (submit_trace ++ [Click StartPlanning])%list.

Definition failed_body : string :=
  dq "{'plan_run_id':'run-1','state':'FAILED','error':'No flights found'}".


(** ** [JSON.parse] on sample texts *)

Example parse_nested :
  JSON.parse (dq " { 'a' : [1, 2.5, -3e2, true, null] , 'b' : {'c': 'd'} } ")
  = Some (JObj [("a", JArr [JNum 1; JNum (5 # 2); JNum (-300); JBool true; JNull]);
                ("b", JObj [("c", JStr "d")])]).
Proof. vm_compute. reflexivity. Qed.

Example parse_scalar : JSON.parse " 12 " = Some (JNum 12).
Proof. vm_compute. reflexivity. Qed.

Example parse_escapes :
  JSON.parse (dq "'a\nb\u0041\/'")
  = Some (JStr ("a" ++ newline ++ "bA/")).
Proof. vm_compute. reflexivity. Qed.

Example parse_key_order :
  JSON.parse (dq "{'b':1,'2':2,'a':3,'1':4,'b':5}")
  = Some (JObj [("1", JNum 4); ("2", JNum 2); ("b", JNum 5); ("a", JNum 3)]).
Proof. vm_compute. reflexivity. Qed.

Example parse_rejects :
  map JSON.parse
      [EmptyString; "Trip booked!"; "[1,]"; dq "{'a':1,}"; "01"; "1."; "-";
       "[1 2]"; dq "{'a' 1}"; "nul"; "truefalse"; dq "'open"; "{a:1}"; "[]]"]
  = repeat None 14.
Proof. vm_compute. reflexivity. Qed.

Section RenderingFacts.

Variable host : Host.

Lemma lookup_has (key : string) (props : list (string * value)) :
  JS.has key (JObj props) = false -> JS.get (JObj props) key = JUndefined.
Proof.
  unfold JS.has, JS.get. destruct (JS.lookup key props); [discriminate | reflexivity].
Qed.

Lemma jsonToMarkdown_string (s : string) : jsonToMarkdown host (JStr s) = s.
Proof.
  unfold jsonToMarkdown. simpl.
  destruct (String.eqb_spec s EmptyString) as [-> | _]; reflexivity.
Qed.

Lemma value_guard_object (r : revision) (props : list (string * value)) :
  JS.has "value" (JObj props) = true ->
  (r = Untyped -> JS.truthy (JS.get (JObj props) "value") = true) ->
  value_guard r (JObj props) = true.
Proof.
  intros Hhas Htruthy. destruct r; simpl.
  - apply Htruthy. reflexivity.
  - exact Hhas.
Qed.


Lemma summary_guard_string (r : revision) (s : string) :
  summary_guard r (JStr s) = false.
Proof. destruct r; reflexivity. Qed.



End RenderingFacts.


Section RenderingClaims.

Variable host : Host.

Example jsonToMarkdown_nested :
  jsonToMarkdown host
    (JObj [("flight", JObj [("Airline", JStr "Acme"); ("stops", JArr [])]);
           ("tags", JArr [JStr "x"; JNull; JBool false])])
  = "**flight:**" ++ newline
    ++ "  **Airline:** Acme" ++ newline ++ newline
    ++ "  **stops:** []" ++ newline ++ newline
    ++ "**tags:**   - x" ++ newline
    ++ "  - null" ++ newline
    ++ "  - false".
Proof. reflexivity. Qed.

(** The nested calls of [formatValue]: a member nests strictly less than
    the array or object that holds it, a call with more activations allowed
    than the value nests gives what the structural definition gives, and
    a call with fewer fails. *)
Lemma all_some_map_some {A B : Type} (F : A -> option B) (G : A -> B)
      (l : list A) :
  (forall a, In a l -> F a = Some (G a)) ->
  all_some (map F l) = Some (map G l).
Proof.
  induction l as [| a l IH]; intros H; [reflexivity |].
  simpl. rewrite (H a (or_introl eq_refl)).
  rewrite IH; [reflexivity |].
  intros b Hb. apply H. right. exact Hb.
Qed.

Lemma all_some_map_none {A B : Type} (F : A -> option B) (l : list A) (a : A) :
  In a l -> F a = None -> all_some (map F l) = None.
Proof.
  induction l as [| b l IH]; intros Hin Hnone; [contradiction |].
  simpl. destruct Hin as [-> | Hin].
  - rewrite Hnone. reflexivity.
  - destruct (F b); [| reflexivity]. rewrite (IH Hin Hnone). reflexivity.
Qed.

Lemma list_max_member {A : Type} (f : A -> nat) (l : list A) (a : A) :
  In a l -> (f a <= list_max (map f l))%nat.
Proof.
  induction l as [| b l IH]; intros Hin; [contradiction |].
  simpl. destruct Hin as [-> | Hin]; [lia |].
  specialize (IH Hin). lia.
Qed.

Lemma list_max_attained {A : Type} (f : A -> nat) (l : list A) :
  l <> [] -> exists a, In a l /\ f a = list_max (map f l).
Proof.
  induction l as [| b l IH]; intros Hne; [contradiction |].
  destruct l as [| c l'].
  - exists b. split; [left; reflexivity | simpl; lia].
  - destruct IH as [a [Hin Ha]]; [discriminate |].
    change (list_max (map f (b :: c :: l')))
      with (Nat.max (f b) (list_max (map f (c :: l')))).
    destruct (Nat.max_spec (f b) (list_max (map f (c :: l')))) as [[_ E] | [_ E]];
      rewrite E.
    + exists a. split; [right; exact Hin | exact Ha].
    + exists b. split; [left; reflexivity | reflexivity].
Qed.

Lemma height_member_array (item : value) (items : list value) :
  In item items -> (height item < height (JArr items))%nat.
Proof.
  intros Hin. pose proof (list_max_member height items item Hin) as Hle.
  destruct items as [| x xs]; [contradiction |].
  change (height (JArr (x :: xs))) with (S (list_max (map height (x :: xs)))).
  lia.
Qed.

Lemma height_member_object (key : string) (val : value)
      (entries : list (string * value)) :
  In (key, val) entries -> (height val < height (JObj entries))%nat.
Proof.
  intros Hin.
  pose proof (list_max_member (fun '(_, v) => height v) entries (key, val) Hin) as Hle.
  destruct entries as [| x xs]; [contradiction |].
  change (height (JObj (x :: xs)))
    with (S (list_max (map (fun '(_, v) => height v) (x :: xs)))).
  simpl in Hle |- *. lia.
Qed.

Lemma formatValue_within_enough (calls : nat) :
  forall (v : value) (depth : nat),
    (height v < calls)%nat ->
    formatValue_within host calls v depth = Some (formatValue host v depth).
Proof.
  induction calls as [| calls IH]; intros v depth Hlt; [lia |].
  destruct v as [| | b | q | | s | items | entries]; try reflexivity.
  - destruct items as [| x xs]; [reflexivity |].
    cbn [formatValue_within formatValue].
    rewrite (all_some_map_some _
               (fun item => repeat_string "  " depth ++ "- "
                            ++ formatValue host item (S depth))).
    + reflexivity.
    + intros item Hin. rewrite IH; [reflexivity |].
      pose proof (height_member_array item _ Hin). lia.
  - destruct entries as [| x xs]; [reflexivity |].
    cbn [formatValue_within formatValue].
    rewrite (all_some_map_some _
               (fun '(key, val) =>
                  if String.eqb (JS.typeof val) "object"
                     && negb (JS.is_null val) && negb (JS.isArray val)
                  then repeat_string "  " depth ++ "**" ++ key ++ ":**"
                       ++ newline ++ formatValue host val (S depth)
                  else repeat_string "  " depth ++ "**" ++ key ++ ":** "
                       ++ formatValue host val (S depth))).
    + reflexivity.
    + intros [key val] Hin. rewrite IH; [reflexivity |].
      pose proof (height_member_object key val _ Hin). lia.
Qed.

Lemma formatValue_within_short (calls : nat) :
  forall (v : value) (depth : nat),
    (calls <= height v)%nat -> formatValue_within host calls v depth = None.
Proof.
  induction calls as [| calls IH]; intros v depth Hle; [reflexivity |].
  destruct v as [| | b | q | | s | items | entries];
    try (simpl in Hle; lia).
  - destruct items as [| x xs]; [simpl in Hle; lia |].
    destruct (list_max_attained height (x :: xs)) as [item [Hin Hmax]];
      [discriminate |].
    change (height (JArr (x :: xs))) with (S (list_max (map height (x :: xs))))
      in Hle.
    cbn [formatValue_within].
    rewrite (all_some_map_none _ (x :: xs) item Hin); [reflexivity |].
    rewrite IH; [reflexivity | lia].
  - destruct entries as [| x xs]; [simpl in Hle; lia |].
    destruct (list_max_attained (fun '(_, v) => height v) (x :: xs))
      as [[key val] [Hin Hmax]]; [discriminate |].
    change (height (JObj (x :: xs)))
      with (S (list_max (map (fun '(_, v) => height v) (x :: xs)))) in Hle.
    cbn [formatValue_within].
    rewrite (all_some_map_none _ (x :: xs) (key, val) Hin); [reflexivity |].
    rewrite IH; [reflexivity | lia].
Qed.

(** C10, amended.  [jsonToMarkdown] terminates on every JSON value: the
    recursion of [formatValue] goes from an array or an object to its
    members, each nesting strictly less, so a run opens exactly
    [height data + 1] nested calls: with that many allowed it returns the
    string of the structural definition, with fewer it cannot.  At top
    level every falsy input ([null], [undefined], [0], [NaN], [false], the
    empty string) gives the empty string, also where [toString] would give
    "0" or "false"; a string gives itself; any other value goes to
    [formatValue], which renders [null] and [undefined] as "null", a string
    as itself, a number and a boolean by [toString], the empty array as
    "[]", the empty object as "{}", and a non-empty array or object from
    the renderings of its members one level deeper. *)
Theorem C10_jsonToMarkdown_terminates :
  (forall data calls,
     (height data < calls)%nat ->
     jsonToMarkdown_within host calls data = Some (jsonToMarkdown host data))
  /\ (forall v depth calls,
        formatValue_within host calls v depth = None <-> (calls <= height v)%nat)
  /\ (forall item items,
        In item items -> (height item < height (JArr items))%nat)
  /\ (forall key val entries,
        In (key, val) entries -> (height val < height (JObj entries))%nat)
  /\ (forall data, JS.truthy data = false -> jsonToMarkdown host data = EmptyString)
  /\ (jsonToMarkdown host JNull = EmptyString
      /\ jsonToMarkdown host JUndefined = EmptyString
      /\ jsonToMarkdown host (JNum 0) = EmptyString
      /\ jsonToMarkdown host JNaN = EmptyString
      /\ jsonToMarkdown host (JBool false) = EmptyString
      /\ jsonToMarkdown host (JStr EmptyString) = EmptyString)
  /\ (forall s, jsonToMarkdown host (JStr s) = s)
  /\ (forall data, JS.truthy data = true -> jsonToMarkdown host data = formatValue host data 0)
  /\ (forall depth,
        formatValue host JNull depth = "null"
        /\ formatValue host JUndefined depth = "null"
        /\ (forall s, formatValue host (JStr s) depth = s)
        /\ (forall q, formatValue host (JNum q) depth = Number_toString host q)
        /\ formatValue host (JBool true) depth = "true"
        /\ formatValue host (JBool false) depth = "false"
        /\ formatValue host (JArr []) depth = "[]"
        /\ formatValue host (JObj []) depth = "{}"
        /\ (forall item items,
              formatValue host (JArr (item :: items)) depth
              = join newline
                  (map (fun x => repeat_string "  " depth ++ "- "
                                 ++ formatValue host x (S depth))
                       (item :: items)))
        /\ (forall entry entries,
              formatValue host (JObj (entry :: entries)) depth
              = join (newline ++ newline)
                  (map (fun '(key, val) =>
                          match val with
                          | JObj _ =>
                              repeat_string "  " depth ++ "**" ++ key ++ ":**"
                              ++ newline ++ formatValue host val (S depth)
                          | _ =>
                              repeat_string "  " depth ++ "**" ++ key ++ ":** "
                              ++ formatValue host val (S depth)
                          end)
                       (entry :: entries)))).
Proof.
  split.
  { intros data calls Hlt. unfold jsonToMarkdown_within, jsonToMarkdown.
    destruct (negb (JS.truthy data)); [reflexivity |].
    destruct data; try reflexivity;
      apply formatValue_within_enough; exact Hlt. }
  split.
  { intros v depth calls. split.
    - intros Hnone. destruct (Nat.le_gt_cases calls (height v)) as [Hle | Hgt];
        [exact Hle |].
      rewrite (formatValue_within_enough calls v depth Hgt) in Hnone.
      discriminate Hnone.
    - apply formatValue_within_short. }
  split; [exact height_member_array |].
  split; [exact height_member_object |].
  split.
  { intros data Hf. unfold jsonToMarkdown. rewrite Hf. reflexivity. }
  split; [repeat split; reflexivity |].
  split; [apply jsonToMarkdown_string |].
  split.
  - intros data Ht. unfold jsonToMarkdown. rewrite Ht. simpl.
    destruct data; reflexivity.
  - intros depth. repeat split; try reflexivity.
    intros entry entries.
    change (formatValue host (JObj (entry :: entries)) depth)
      with (join (newline ++ newline)
              (map (fun '(key, val) =>
                      if String.eqb (JS.typeof val) "object"
                         && negb (JS.is_null val) && negb (JS.isArray val)
                      then repeat_string "  " depth ++ "**" ++ key ++ ":**"
                           ++ newline ++ formatValue host val (S depth)
                      else repeat_string "  " depth ++ "**" ++ key ++ ":** "
                           ++ formatValue host val (S depth))
                   (entry :: entries))).
    f_equal. apply map_ext. intros [key val]. destruct val; reflexivity.
Qed.

(** C5.  When [final_output] is a string that [JSON.parse] rejects, the
    normaliser leaves [travelData] at [null] and the summary closure
    returns the raw string; for a non-empty one in a COMPLETE plan the
    view shows no cards and that string as its summary. *)
Theorem C5_unparsable_string (r : revision) (s : string) :
  JSON.parse s = None ->
  travelData r (JStr s) = JNull
  /\ summary host r (JStr s) = JStr s
  /\ (forall planState,
        JS.get planState "state" = JStr "COMPLETE" ->
        JS.get planState "final_output" = JStr s ->
        s <> EmptyString ->
        cards (results_view host r planState) = None
        /\ trip_summary (results_view host r planState) = Some (JStr s)).
Proof.
  intros Hparse.
  assert (Htd : travelData r (JStr s) = JNull).
  { unfold travelData. rewrite Hparse. reflexivity. }
  assert (Hsum : summary host r (JStr s) = JStr s).
  { unfold summary. rewrite summary_guard_string, Hparse.
    rewrite jsonToMarkdown_string. reflexivity. }
  split; [exact Htd |]. split; [exact Hsum |].
  intros planState Hstate Hfo Hne. unfold results_view.
  destruct planState; try discriminate Hstate.
  unfold opt_get. simpl JS.is_nullish. cbv iota.
  rewrite Hstate, Hfo, Htd, Hsum. simpl.
  destruct (String.eqb_spec s EmptyString) as [-> | _];
    [contradiction | split; reflexivity].
Qed.


(** The guard of the summary closure on an object: [Untyped] asks for a
    truthy [summary] entry, [Typed] for the key. *)
Lemma summary_guard_object (r : revision) (props : list (string * value)) :
  summary_guard r (JObj props)
  = match r with
    | Untyped => JS.truthy (JS.get (JObj props) "summary")
    | Typed => JS.has "summary" (JObj props)
    end.
Proof. destruct r; reflexivity. Qed.

(** C2, amended.  Let [final_output] be an object with a [value] entry
    which, in the [Untyped] revision, is truthy.  The candidate comes from
    that entry: a string is parsed, and when parsing fails [travelData]
    stays [null] and the summary closure returns the raw string, unless the
    [summary] entry of [final_output] passes the test the revision puts
    first -- a truthy [final_output.summary] in [Untyped],
    ['summary' in final_output] in [Typed] -- and then that entry is what
    the closure returns; any other value is itself the [travelData].  For
    [{value: hotel_text}] the hotel name is "X" and the total is 500. *)
Theorem C2_value_entry (r : revision) :
  (forall props,
     JS.has "value" (JObj props) = true ->
     (r = Untyped -> JS.truthy (JS.get (JObj props) "value") = true) ->
     let summary_shown :=
       match r with
       | Untyped => JS.truthy (JS.get (JObj props) "summary")
       | Typed => JS.has "summary" (JObj props)
       end in
     (forall s, JS.get (JObj props) "value" = JStr s ->
        (forall parsed, JSON.parse s = Some parsed ->
           travelData r (JObj props) = parsed)
        /\ (JSON.parse s = None ->
              travelData r (JObj props) = JNull
              /\ (summary_shown = false ->
                    summary host r (JObj props) = JStr s)
              /\ (summary_shown = true ->
                    summary host r (JObj props) = JS.get (JObj props) "summary")))
     /\ ((forall s, JS.get (JObj props) "value" <> JStr s) ->
           travelData r (JObj props) = JS.get (JObj props) "value"))
  /\ (let data := travelData r (JObj [("value", JStr hotel_text)]) in
      JS.get (JS.get data "accommodation") "HotelName" = JStr "X"
      /\ total host data = JNum 500).
Proof.
  split.
  - intros props Hhas Htruthy. cbv zeta.
    pose proof (value_guard_object r props Hhas Htruthy) as Hguard.
    rewrite <- (summary_guard_object r props).
    split.
    + intros s Hs. split.
      * intros parsed Hparse. unfold travelData.
        rewrite Hguard, Hs, Hparse. reflexivity.
      * intros Hparse. split; [| split].
        -- unfold travelData. rewrite Hguard, Hs, Hparse. reflexivity.
        -- intros Hno. unfold summary.
           rewrite Hno, Hguard, Hs, Hparse. reflexivity.
        -- intros Hyes. unfold summary. rewrite Hyes. reflexivity.
    + intros Hnot. unfold travelData. rewrite Hguard.
      destruct (JS.get (JObj props) "value") eqn:Hv; try reflexivity.
      exfalso. exact (Hnot s eq_refl).
  - destruct r; vm_compute; split; reflexivity.
Qed.

End RenderingClaims.

(* ================================================================== *)
(** * Invariants of the component *)
(* ================================================================== *)

Lemma same_handle_refl (a : option handle) : same_handle a a = true.
Proof. destruct a; simpl; [apply Pos.eqb_refl | reflexivity]. Qed.

Lemma commit_effects_same (before : State) (w : World) :
  pollingInterval before = pollingInterval (state w) ->
  commit_effects before w = w.
Proof.
  intros H. unfold commit_effects. rewrite H, same_handle_refl. reflexivity.
Qed.

Lemma find_interval_In (h : handle) (l : list (handle * Interval)) (cb : Interval) :
  find_interval h l = Some cb -> In (h, cb) l.
Proof.
  induction l as [| [h' cb'] l IH]; simpl; [discriminate |].
  destruct (Pos.eqb_spec h' h) as [-> | _].
  - intros [= ->]. left. reflexivity.
  - intros H. right. apply IH, H.
Qed.

Lemma find_pending_In (n : nat) (l : list (nat * continuation)) (k : continuation) :
  find_pending n l = Some k -> In (n, k) l.
Proof.
  induction l as [| [n' k'] l IH]; simpl; [discriminate |].
  destruct (Nat.eqb_spec n' n) as [-> | _].
  - intros [= ->]. left. reflexivity.
  - intros H. right. apply IH, H.
Qed.

Lemma invariant_initial : invariant initial_world.
Proof.
  constructor; simpl; try lia; try reflexivity; try contradiction; discriminate.
Qed.

Lemma invariant_click (w : World) (b : button) :
  invariant w -> button_enabled (state w) b = true ->
  invariant (step w (Click b)).
Proof.
  intros [Hstep Hidle Hpend Hcb Hown Hfresh] Hen.
  unfold step, handle_event, onClick.
  destruct b; simpl in Hen.
  - (* Continue *)
    unfold nextStep.
    destruct (currentStep (state w) <? steps_length - 1) eqn:Hlt.
    + rewrite commit_effects_same by reflexivity.
      assert (currentStep (state w) = 0 \/ currentStep (state w) = 1) as Hcs by lia.
      constructor; simpl; auto; try lia.
      intros _. apply Hidle. lia.
    + rewrite commit_effects_same by reflexivity. constructor; assumption.
  - (* Back *)
    unfold prevStep.
    destruct (0 <? currentStep (state w)) eqn:Hlt.
    + rewrite commit_effects_same by reflexivity.
      constructor; simpl; auto; try lia.
      intros _. apply Hidle. lia.
    + rewrite commit_effects_same by reflexivity. constructor; assumption.
  - (* StartPlanning *)
    unfold startPlanning. rewrite commit_effects_same by reflexivity.
    constructor; simpl; auto.
    intros n k Hin. apply in_app_iff in Hin. destruct Hin as [Hin | [[= _ <-] | []]].
    + eapply Hpend, Hin.
    + simpl. apply Hidle. lia.
  - (* PlanAnotherTrip *)
    unfold planAnotherTrip, commit_effects.
    destruct (pollingInterval (state w)) as [h |] eqn:Hpi; simpl.
    + constructor; simpl; try lia; try reflexivity; try discriminate; auto.
      * intros h' cb Hin. apply filter_In in Hin. destruct Hin as [Hin _].
        apply filter_In in Hin. destruct Hin as [Hin _]. eapply Hcb, Hin.
      * intros h' cb Hin. apply filter_In in Hin. destruct Hin as [Hin _].
        apply filter_In in Hin. destruct Hin as [Hin Hne]. simpl in Hne.
        apply Hown in Hin. injection Hin as <-.
        rewrite Pos.eqb_refl in Hne. discriminate.
    + rewrite Hpi. simpl.
      constructor; simpl; try lia; try reflexivity; try discriminate; auto.
      * intros h cb Hin. apply Hown in Hin. discriminate.
      * intros h Hh. rewrite Hpi in Hh. discriminate.
Qed.

Lemma invariant_change (w : World) (ed : edit) :
  invariant w -> invariant (step w (Change ed)).
Proof.
  intros [Hstep Hidle Hpend Hcb Hown Hfresh].
  unfold step, handle_event, onChange.
  destruct ed; rewrite commit_effects_same by reflexivity;
    constructor; assumption.
Qed.

Lemma invariant_tick (w : World) (h : handle) :
  invariant w -> invariant (step w (Tick h)).
Proof.
  intros Hinv. unfold step, handle_event.
  destruct (find_interval h (intervals w)) as [cb |] eqn:Hfind.
  - destruct Hinv as [Hstep Hidle Hpend Hcb Hown Hfresh].
    unfold pollPlanState. rewrite commit_effects_same by reflexivity.
    constructor; simpl; auto.
    intros n k Hin. apply in_app_iff in Hin. destruct Hin as [Hin | [[= _ <-] | []]].
    + eapply Hpend, Hin.
    + simpl. eapply Hcb, find_interval_In, Hfind.
  - rewrite commit_effects_same by reflexivity. exact Hinv.
Qed.

(** The rest of [pollPlanState], run by a closure that saw no interval:
    it touches [planState] and [currentStep] only. *)
Lemma pollPlanState_resume_frame (render : State) (planRunId : value)
      (resp : response) (w : World) :
  pollingInterval render = None ->
  let w' := pollPlanState_resume render planRunId resp w in
  intervals w' = intervals w
  /\ pending w' = pending w
  /\ next_handle w' = next_handle w
  /\ requests w' = requests w
  /\ pollingInterval (state w') = pollingInterval (state w)
  /\ formData (state w') = formData (state w)
  /\ (currentStep (state w') = currentStep (state w) \/ currentStep (state w') = 4).
Proof.
  intros Hnone. unfold pollPlanState_resume. rewrite Hnone.
  destruct resp as [| status body]; simpl; [tauto |].
  destruct (ok status); simpl.
  - destruct (JSON.parse body) as [st |]; simpl; [| tauto].
    destruct (JS.is_nullish st); simpl; [tauto |].
    destruct (is_terminal st); simpl; tauto.
  - destruct (status =? 404); simpl; tauto.
Qed.

(** The rest of [startPlanning], run by a closure that saw no interval:
    either nothing but [planState] and the console changes, or polling
    starts with one request and one new interval and the step becomes 3. *)
Lemma startPlanning_resume_cases (render : State) (resp : response) (w : World) :
  pollingInterval render = None ->
  let w' := startPlanning_resume render resp w in
  (intervals w' = intervals w
   /\ pending w' = pending w
   /\ next_handle w' = next_handle w
   /\ requests w' = requests w
   /\ pollingInterval (state w') = pollingInterval (state w)
   /\ formData (state w') = formData (state w)
   /\ currentStep (state w') = currentStep (state w))
  \/ (exists planRunId,
        intervals w'
        = (intervals w
             ++ [(next_handle w,
                  {| interval_render := render; interval_planRunId := planRunId |})])%list
        /\ pending w'
           = (pending w
                ++ [(List.length (requests w), PollPlanStateK render planRunId)])%list
        /\ next_handle w' = Pos.succ (next_handle w)
        /\ requests w' = (requests w ++ [GetPlanState planRunId])%list
        /\ pollingInterval (state w') = Some (next_handle w)
        /\ formData (state w') = formData (state w)
        /\ currentStep (state w') = 3).
Proof.
  intros Hnone. unfold startPlanning_resume.
  destruct resp as [| status body]; simpl; [left; tauto |].
  destruct (ok status); simpl; [| left; tauto].
  destruct (JSON.parse body) as [initialState |]; simpl; [| left; tauto].
  destruct (JS.is_nullish initialState); simpl; [left; tauto |].
  right. exists (JS.get initialState "plan_run_id").
  unfold startPolling. rewrite Hnone. simpl. tauto.
Qed.

Lemma invariant_settle (w : World) (n : nat) (resp : response) :
  invariant w -> invariant (step w (Settle n resp)).
Proof.
  intros Hinv. unfold step, handle_event.
  destruct (find_pending n (pending w)) as [k |] eqn:Hfind;
    [| rewrite commit_effects_same by reflexivity; exact Hinv].
  pose proof (find_pending_In _ _ _ Hfind) as Hk.
  destruct Hinv as [Hstep Hidle Hpend Hcb Hown Hfresh].
  pose proof (Hpend _ _ Hk) as Hnone.
  assert (Hpend' : forall n0 k0,
             In (n0, k0) (pending (settled n w)) ->
             pollingInterval (continuation_render k0) = None).
  { simpl. intros n0 k0 Hin. apply filter_In in Hin. eapply Hpend, Hin. }
  destruct k as [render | render planRunId]; simpl in Hnone; unfold resume.
  - destruct (startPlanning_resume_cases render resp (settled n w) Hnone)
      as [H | [planRunId H]]; simpl in H;
      destruct H as (Hi & Hp & Hn & Hr & Hpi & Hf & Hc).
    + rewrite commit_effects_same by (symmetry; exact Hpi).
      constructor; rewrite ?Hi, ?Hp, ?Hn, ?Hpi, ?Hc; auto.
    + unfold commit_effects. rewrite Hpi.
      destruct (pollingInterval (state w)) as [old |] eqn:Hold; simpl.
      * pose proof (Hfresh old eq_refl) as Hlt.
        destruct (Pos.eqb_spec old (next_handle w)) as [-> | Hne]; [lia |].
        constructor; simpl; rewrite ?Hi, ?Hp, ?Hn, ?Hpi, ?Hc; try lia.
        -- intros n0 k0 Hin. apply in_app_iff in Hin.
           destruct Hin as [Hin | [[= _ <-] | []]]; [| exact Hnone].
           eapply Hpend', Hin.
        -- intros h cb Hin. apply filter_In in Hin. destruct Hin as [Hin _].
           apply in_app_iff in Hin.
           destruct Hin as [Hin | [[= _ <-] | []]]; [eapply Hcb, Hin | exact Hnone].
        -- intros h cb Hin. apply filter_In in Hin. destruct Hin as [Hin Hkeep].
           simpl in Hkeep. apply in_app_iff in Hin.
           destruct Hin as [Hin | [[= <- _] | []]]; [| reflexivity].
           apply Hown in Hin. injection Hin as <-.
           rewrite Pos.eqb_refl in Hkeep. discriminate.
        -- intros h [= <-]. lia.
      * constructor; rewrite ?Hi, ?Hp, ?Hn, ?Hpi, ?Hc; try lia.
        -- intros n0 k0 Hin. apply in_app_iff in Hin.
           destruct Hin as [Hin | [[= _ <-] | []]]; [| exact Hnone].
           eapply Hpend', Hin.
        -- intros h cb Hin. apply in_app_iff in Hin.
           destruct Hin as [Hin | [[= _ <-] | []]]; [eapply Hcb, Hin | exact Hnone].
        -- intros h cb Hin. apply in_app_iff in Hin.
           destruct Hin as [Hin | [[= <- _] | []]]; [| reflexivity].
           apply Hown in Hin. discriminate.
        -- intros h [= <-]. lia.
  - destruct (pollPlanState_resume_frame render planRunId resp (settled n w) Hnone)
      as (Hi & Hp & Hn & Hr & Hpi & Hf & Hc); simpl in *.
    rewrite commit_effects_same by (symmetry; exact Hpi).
    constructor; rewrite ?Hi, ?Hp, ?Hn, ?Hpi; auto.
    + destruct Hc as [-> | ->]; lia.
    + destruct Hc as [-> | ->]; [exact Hidle | lia].
Qed.

Lemma reachable_invariant (w : World) : reachable w -> invariant w.
Proof.
  induction 1 as [| w e _ IH Hen]; [apply invariant_initial |].
  destruct e as [b | ed | h | n resp].
  - apply invariant_click; assumption.
  - apply invariant_change; assumption.
  - apply invariant_tick; assumption.
  - apply invariant_settle; assumption.
Qed.

Lemma is_terminal_not_nullish (st : value) :
  is_terminal st = true -> JS.is_nullish st = false.
Proof. destruct st; simpl; try reflexivity; discriminate. Qed.

Lemma filter_none {A : Type} (f : A -> bool) (l : list A) :
  (forall x, In x l -> f x = false) -> filter f l = [].
Proof.
  induction l as [| a l IH]; simpl; intros H; [reflexivity |].
  rewrite (H a (or_introl eq_refl)). apply IH. intros x Hx. apply H. right. exact Hx.
Qed.

Lemma state_commit_effects (before : State) (w : World) :
  state (commit_effects before w) = state w.
Proof.
  unfold commit_effects.
  destruct (same_handle _ _); [reflexivity |].
  destruct (pollingInterval before); reflexivity.
Qed.

Lemma requests_commit_effects (before : State) (w : World) :
  requests (commit_effects before w) = requests w.
Proof.
  unfold commit_effects.
  destruct (same_handle _ _); [reflexivity |].
  destruct (pollingInterval before); reflexivity.
Qed.

(** The step an event leaves behind: its own, or 3, or 4 after a terminal
    poll answer, or what the button does. *)
Lemma currentStep_step (w : World) (e : event) :
  let c := currentStep (state w) in
  let c' := currentStep (state (step w e)) in
  match e with
  | Click Continue => c' = if c <? steps_length - 1 then c + 1 else c
  | Click Back => c' = if 0 <? c then c - 1 else c
  | Click StartPlanning => c' = c
  | Click PlanAnotherTrip => c' = 0
  | Change _ | Tick _ => c' = c
  | Settle n resp =>
      match find_pending n (pending w) with
      | Some (StartPlanningK _) => c' = c \/ c' = 3
      | Some (PollPlanStateK _ _) =>
          c' = c
          \/ (c' = 4 /\ exists status body st,
                resp = Response status body /\ ok status = true
                /\ JSON.parse body = Some st /\ is_terminal st = true)
      | None => c' = c
      end
  end.
Proof.
  unfold step. cbv zeta. rewrite state_commit_effects.
  destruct e as [b | ed | h | n resp]; simpl.
  - destruct b; simpl.
    + unfold nextStep. destruct (_ <? _); reflexivity.
    + unfold prevStep. destruct (_ <? _); reflexivity.
    + reflexivity.
    + unfold planAnotherTrip. destruct (pollingInterval (state w)); reflexivity.
  - destruct ed; reflexivity.
  - destruct (find_interval h (intervals w)); reflexivity.
  - destruct (find_pending n (pending w)) as [[render | render planRunId] |];
      [| | reflexivity]; simpl.
    + unfold startPlanning_resume.
      destruct resp as [| status body]; simpl; [left; reflexivity |].
      destruct (ok status); simpl; [| left; reflexivity].
      destruct (JSON.parse body) as [st |]; simpl; [| left; reflexivity].
      destruct (JS.is_nullish st); simpl; [left; reflexivity |].
      right. unfold startPolling.
      destruct (pollingInterval render); reflexivity.
    + unfold pollPlanState_resume.
      destruct resp as [| status body]; simpl; [left; reflexivity |].
      destruct (ok status) eqn:Hok; simpl.
      * destruct (JSON.parse body) as [st |] eqn:Hparse; simpl; [| left; reflexivity].
        destruct (JS.is_nullish st); simpl; [left; reflexivity |].
        destruct (is_terminal st) eqn:Hterm; simpl; [| left; reflexivity].
        right. split.
        -- destruct (pollingInterval render); reflexivity.
        -- exists status, body, st. auto.
      * destruct (status =? 404); left; reflexivity.
Qed.

(* ================================================================== *)
(** * Properties of the wizard and of the poller *)
(* ================================================================== *)

(** [nextStep] itself would go from the processing step to the results
    step; no element of the page calls it there: "Continue" is on screen at
    steps 0 and 1 only. *)
Remark nextStep_from_processing (render : State) (w : World) :
  currentStep render = 3 -> currentStep (state (nextStep render w)) = 4.
Proof. intros H. unfold nextStep. rewrite H. reflexivity. Qed.

Remark continue_on_screen (s : State) :
  button_enabled s Continue = true -> currentStep s = 0 \/ currentStep s = 1.
Proof. simpl. lia. Qed.

(** C9.  [currentStep] stays in 0..4.  It is so in every reachable world,
    and every event keeps it so.  "Continue" adds one up to the last index,
    4; "Back" subtracts one down to 0; an accepted submission sets 3; a
    terminal poll answer sets 4; "Plan Another Trip" sets 0. *)
Theorem C9_currentStep_range :
  (forall w, reachable w -> 0 <= currentStep (state w) <= 4)
  /\ (forall w e,
        0 <= currentStep (state w) <= 4 ->
        0 <= currentStep (state (step w e)) <= 4)
  /\ (forall w,
        0 <= currentStep (state w) <= 4 ->
        currentStep (state (step w (Click Continue)))
        = Z.min (currentStep (state w) + 1) 4
        /\ currentStep (state (step w (Click Back)))
           = Z.max (currentStep (state w) - 1) 0)
  /\ (forall w render status body initialState,
        ok status = true ->
        JSON.parse body = Some initialState ->
        JS.is_nullish initialState = false ->
        currentStep (state (startPlanning_resume render (Response status body) w)) = 3)
  /\ (forall w render planRunId status body st,
        ok status = true ->
        JSON.parse body = Some st ->
        is_terminal st = true ->
        currentStep
          (state (pollPlanState_resume render planRunId (Response status body) w)) = 4)
  /\ (forall w, currentStep (state (step w (Click PlanAnotherTrip))) = 0).
Proof.
  split; [intros w Hw; apply reachable_invariant, Hw |].
  split.
  { intros w e Hrange. pose proof (currentStep_step w e) as H. cbv zeta in H.
    destruct e as [[] | ed | h | n resp].
    - rewrite H. change (steps_length - 1) with 4.
      destruct (Z.ltb_spec (currentStep (state w)) 4); lia.
    - rewrite H. destruct (Z.ltb_spec 0 (currentStep (state w))); lia.
    - lia.
    - lia.
    - lia.
    - lia.
    - destruct (find_pending n (pending w)) as [[render | render planRunId] |].
      + destruct H as [-> | ->]; lia.
      + destruct H as [-> | [-> _]]; lia.
      + lia. }
  split.
  { intros w Hrange. split.
    - rewrite (currentStep_step w (Click Continue)).
      change (steps_length - 1) with 4.
      destruct (Z.ltb_spec (currentStep (state w)) 4); lia.
    - rewrite (currentStep_step w (Click Back)).
      destruct (Z.ltb_spec 0 (currentStep (state w))); lia. }
  split.
  { intros w render status body initialState Hok Hparse Hnn.
    unfold startPlanning_resume. rewrite Hok, Hparse, Hnn. simpl.
    unfold startPolling. destruct (pollingInterval render); reflexivity. }
  split.
  { intros w render planRunId status body st Hok Hparse Hterm.
    unfold pollPlanState_resume.
    rewrite Hok, Hparse, (is_terminal_not_nullish st Hterm), Hterm. simpl.
    destruct (pollingInterval render); reflexivity. }
  intros w. exact (currentStep_step w (Click PlanAnotherTrip)).
Qed.

(** A terminal poll answer is stored and sets the results step, whatever
    the step was. *)
Lemma terminal_poll_applied
      (w : World) (n : nat) (render : State) (planRunId : value)
      (status : Z) (body : string) (st : value) :
  find_pending n (pending w) = Some (PollPlanStateK render planRunId) ->
  ok status = true ->
  JSON.parse body = Some st ->
  is_terminal st = true ->
  currentStep (state (step w (Settle n (Response status body)))) = 4
  /\ planState (state (step w (Settle n (Response status body)))) = st.
Proof.
  intros Hfind Hok Hparse Hterm.
  unfold step. rewrite state_commit_effects. simpl. rewrite Hfind. simpl.
  unfold pollPlanState_resume.
  rewrite Hok, Hparse, (is_terminal_not_nullish st Hterm), Hterm. simpl.
  destruct (pollingInterval render); split; reflexivity.
Qed.

(** C3.  No click on "Continue" leads to the results step: the button is
    on screen at steps 0 and 1 only and leads to 1 or 2.  An event that
    brings [currentStep] to 4 from elsewhere is the answer to a poll whose
    body parses to a terminal plan state; and such an answer sets
    [currentStep] to 4 whatever it was. *)
Theorem C3_results_only_by_terminal_poll :
  (forall w,
     enabled w (Click Continue) = true ->
     currentStep (state (step w (Click Continue))) = currentStep (state w) + 1
     /\ currentStep (state (step w (Click Continue))) <= 2)
  /\ (forall w e,
        enabled w e = true ->
        currentStep (state (step w e)) = 4 ->
        currentStep (state w) <> 4 ->
        exists n render planRunId status body st,
          e = Settle n (Response status body)
          /\ find_pending n (pending w) = Some (PollPlanStateK render planRunId)
          /\ ok status = true
          /\ JSON.parse body = Some st
          /\ is_terminal st = true)
  /\ (forall w n render planRunId status body st,
        find_pending n (pending w) = Some (PollPlanStateK render planRunId) ->
        ok status = true ->
        JSON.parse body = Some st ->
        is_terminal st = true ->
        currentStep (state (step w (Settle n (Response status body)))) = 4
        /\ planState (state (step w (Settle n (Response status body)))) = st).
Proof.
  split.
  { intros w Hen. rewrite (currentStep_step w (Click Continue)).
    simpl in Hen. change (steps_length - 1) with 4.
    assert (currentStep (state w) = 0 \/ currentStep (state w) = 1) as [-> | ->] by lia;
      simpl; lia. }
  split.
  { intros w e Hen H4 Hnot.
    pose proof (currentStep_step w e) as H. cbv zeta in H.
    destruct e as [[] | ed | h | n resp]; simpl in Hen.
    - exfalso. rewrite H in H4. change (steps_length - 1) with 4 in H4.
      destruct (Z.ltb_spec (currentStep (state w)) 4); lia.
    - exfalso. rewrite H in H4. destruct (Z.ltb_spec 0 (currentStep (state w))); lia.
    - exfalso. lia.
    - exfalso. lia.
    - exfalso. lia.
    - exfalso. lia.
    - destruct (find_pending n (pending w)) as [[render | render planRunId] |] eqn:Hfind.
      + exfalso. destruct H as [H | H]; lia.
      + destruct H as [H | [_ (status & body & st & -> & Hok & Hparse & Hterm)]];
          [exfalso; lia |].
        exists n, render, planRunId, status, body, st. auto.
      + exfalso. lia. }
  intros w n render planRunId status body st.
  apply terminal_poll_applied.
Qed.

(** C6.  Whatever the world was, "Plan Another Trip" leaves [currentStep]
    at 0, [formData] at its defaults and [planState] at [null]; it empties
    [pollingInterval] and clears the interval that was held there.  In a
    reachable world that is the only interval, so none remains. *)
Theorem C6_reset (w : World) :
  let w' := step w (Click PlanAnotherTrip) in
  currentStep (state w') = 0
  /\ formData (state w')
     = {| origin := EmptyString; destination := EmptyString;
          departure_date := EmptyString; return_date := EmptyString;
          cabin_class := "economy"; passengers := 1 |}
  /\ planState (state w') = JNull
  /\ pollingInterval (state w') = None
  /\ (forall h, pollingInterval (state w) = Some h ->
                find_interval h (intervals w') = None)
  /\ (reachable w -> intervals w' = []).
Proof.
  cbv zeta. unfold step. rewrite !state_commit_effects. simpl.
  unfold planAnotherTrip, commit_effects.
  destruct (pollingInterval (state w)) as [held |] eqn:Hheld; simpl.
  - repeat (split; [reflexivity |]). split.
    + intros h [= <-].
      induction (intervals w) as [| [h' cb] l IH]; simpl; [reflexivity |].
      destruct (Pos.eqb_spec h' held) as [-> | Hne]; simpl; [exact IH |].
      destruct (Pos.eqb_spec h' held) as [-> | _]; simpl; [contradiction |].
      destruct (Pos.eqb_spec h' held) as [-> | _]; [contradiction | exact IH].
    + intros Hreach. apply reachable_invariant in Hreach.
      apply filter_none. intros [h cb] Hin. simpl.
      apply filter_In in Hin. destruct Hin as [Hin Hkeep]. simpl in Hkeep.
      apply (inv_owned w Hreach) in Hin. rewrite Hheld in Hin.
      injection Hin as <-. rewrite Pos.eqb_refl in Hkeep. discriminate.
  - rewrite Hheld. simpl. repeat (split; [reflexivity |]). split.
    + intros h Hh. discriminate.
    + intros Hreach. apply reachable_invariant in Hreach.
      destruct (intervals w) as [| [h cb] l] eqn:Hl; [reflexivity |].
      pose proof (inv_owned w Hreach h cb) as Hown.
      rewrite Hl, Hheld in Hown. discriminate Hown. left. reflexivity.
Qed.

(** C7.  When the answer to a poll is not a 2xx one (404 or any other), the
    tick is skipped: the four state slots, [planState] and [currentStep]
    among them, are as before, the intervals are as before, no request goes
    out; and at its next tick every interval still active sends its status
    request. *)
Theorem C7_poll_failure_skipped
        (w : World) (n : nat) (render : State) (planRunId : value)
        (status : Z) (body : string) :
  find_pending n (pending w) = Some (PollPlanStateK render planRunId) ->
  ok status = false ->
  let w' := step w (Settle n (Response status body)) in
  state w' = state w
  /\ intervals w' = intervals w
  /\ requests w' = requests w
  /\ console w'
     = (console w
          ++ [if status =? 404 then "❌ Plan not found:"
              else "❌ Failed to fetch plan state:"])%list
  /\ (forall h cb,
        find_interval h (intervals w') = Some cb ->
        requests (step w' (Tick h))
        = (requests w' ++ [GetPlanState (interval_planRunId cb)])%list).
Proof.
  intros Hfind Hok. cbv zeta.
  assert (Hstep : step w (Settle n (Response status body))
                  = console_error
                      (if status =? 404 then "❌ Plan not found:"
                       else "❌ Failed to fetch plan state:")
                      (settled n w)).
  { unfold step. simpl. rewrite Hfind. simpl.
    unfold pollPlanState_resume. rewrite Hok. simpl.
    destruct (status =? 404); apply commit_effects_same; reflexivity. }
  rewrite Hstep. simpl. repeat (split; [reflexivity |]).
  intros h cb Hcb. unfold step. rewrite requests_commit_effects.
  simpl. rewrite Hcb. reflexivity.
Qed.

(** C8.  When the answer to the submission is not a 2xx one, the failure
    is only logged: the four state slots are as before ([planState] and
    [currentStep] among them, so the screen is the same), no interval is
    created and no request goes out; the console gets the three error
    lines. *)
Theorem C8_submission_failure
        (w : World) (n : nat) (render : State) (status : Z) (body : string) :
  find_pending n (pending w) = Some (StartPlanningK render) ->
  ok status = false ->
  let w' := step w (Settle n (Response status body)) in
  state w' = state w
  /\ intervals w' = intervals w
  /\ next_handle w' = next_handle w
  /\ requests w' = requests w
  /\ console w'
     = (console w
          ++ ["❌ API Error response:"; "❌ Error starting plan:";
              "📊 Error details:"])%list.
Proof.
  intros Hfind Hok. cbv zeta.
  assert (Hstep : step w (Settle n (Response status body))
                  = startPlanning_catch
                      (console_error "❌ API Error response:" (settled n w))).
  { unfold step. simpl. rewrite Hfind. simpl.
    unfold startPlanning_resume. rewrite Hok. simpl.
    apply commit_effects_same. reflexivity. }
  rewrite Hstep. simpl. repeat (split; [reflexivity |]).
  rewrite <- !app_assoc. reflexivity.
Qed.

Lemma feasible_reachable (trace : list event) (w : World) :
  reachable w -> feasible w trace = true -> reachable (run w trace).
Proof.
  revert w. induction trace as [| e rest IH]; simpl; intros w Hw Hf; [exact Hw |].
  apply andb_prop in Hf. destruct Hf as [He Hrest].
  apply IH; [apply reach_step; assumption | exact Hrest].
Qed.

(** [startPolling] sends exactly one status request, at once. *)
Lemma startPolling_fetches_once (render : State) (planRunId : value) (w : World) :
  requests (startPolling render planRunId w)
  = (requests w ++ [GetPlanState planRunId])%list.
Proof.
  unfold startPolling. destruct (pollingInterval render); reflexivity.
Qed.

(** In a reachable world the closure that receives a terminal answer saw
    [pollingInterval] as [null]: its [clearInterval] branch is not taken, the
    interval and the slot stay as they are. *)
Lemma terminal_poll_keeps_interval
      (w : World) (n : nat) (render : State) (planRunId : value)
      (status : Z) (body : string) (st : value) :
  reachable w ->
  find_pending n (pending w) = Some (PollPlanStateK render planRunId) ->
  ok status = true ->
  JSON.parse body = Some st ->
  is_terminal st = true ->
  let w' := step w (Settle n (Response status body)) in
  intervals w' = intervals w
  /\ pollingInterval (state w') = pollingInterval (state w)
  /\ requests w' = requests w.
Proof.
  intros Hreach Hfind Hok Hparse Hterm. cbv zeta.
  apply reachable_invariant in Hreach.
  pose proof (inv_pending w Hreach _ _ (find_pending_In _ _ _ Hfind)) as Hnone.
  simpl in Hnone. unfold step. simpl. rewrite Hfind. simpl.
  destruct (pollPlanState_resume_frame render planRunId (Response status body)
              (settled n w) Hnone) as (Hi & _ & _ & Hr & Hpi & _).
  simpl in Hi, Hr, Hpi.
  rewrite commit_effects_same by (symmetry; exact Hpi). auto.
Qed.

(** Hence, in a reachable world, an interval that was ticking before a
    terminal answer ticks after it, and the tick sends a request. *)
Lemma polling_goes_on_after_terminal
      (w : World) (n : nat) (render : State) (planRunId : value)
      (status : Z) (body : string) (st : value) (h : handle) (cb : Interval) :
  reachable w ->
  find_pending n (pending w) = Some (PollPlanStateK render planRunId) ->
  ok status = true ->
  JSON.parse body = Some st ->
  is_terminal st = true ->
  find_interval h (intervals w) = Some cb ->
  let w' := step w (Settle n (Response status body)) in
  planState (state w') = st
  /\ currentStep (state w') = 4
  /\ enabled w' (Tick h) = true
  /\ requests (step w' (Tick h))
     = (requests w ++ [GetPlanState (interval_planRunId cb)])%list.
Proof.
  intros Hreach Hfind Hok Hparse Hterm Hcb. cbv zeta.
  destruct (terminal_poll_keeps_interval w n render planRunId status body st
              Hreach Hfind Hok Hparse Hterm) as (Hi & _ & Hr).
  destruct (terminal_poll_applied w n render planRunId status body st
              Hfind Hok Hparse Hterm) as [H4 Hst].
  split; [exact Hst |]. split; [exact H4 |].
  split.
  - simpl. rewrite Hi, Hcb. reflexivity.
  - unfold step at 1. rewrite requests_commit_effects. simpl.
    rewrite Hi, Hcb. simpl. rewrite Hr. reflexivity.
Qed.

(** C1, on the run [complete_trace].  [startPolling] sends one status
    request at once: after the answer to the submission and before any tick
    the requests are the submission and one poll.  Once the answer
    [COMPLETE] to that poll is applied ([planState] holds it, [currentStep]
    is 4) the interval is still active, and its next tick sends a third
    request: the fetch count does not stay constant. *)
Theorem C1_polling_survives_completion :
  let polling := run initial_world polling_trace in
  let done := run initial_world complete_trace in
  reachable done
  /\ requests polling = [PostPlanStart filled_form; GetPlanState (JStr "run-1")]
  /\ JSON.parse complete_body = Some (planState (state done))
  /\ JS.get (planState (state done)) "state" = JStr "COMPLETE"
  /\ currentStep (state done) = 4
  /\ requests done = requests polling
  /\ pollingInterval (state done) = Some 1%positive
  /\ enabled done (Tick 1%positive) = true
  /\ requests (step done (Tick 1%positive))
     = [PostPlanStart filled_form; GetPlanState (JStr "run-1");
        GetPlanState (JStr "run-1")].
Proof.
  cbv zeta. split.
  - apply feasible_reachable; [apply reach_init | vm_compute; reflexivity].
  - vm_compute. repeat split; reflexivity.
Qed.

(* ================================================================== *)
(** * The statements on concrete inputs *)
(* ================================================================== *)

(** The claim C2 as first worded fails twice.  In [Untyped] an object whose
    [value] entry is falsy is itself the candidate, not its entry; and a
    [summary] entry that passes the test of the summary closure is displayed
    in place of the raw string that failed to parse: a truthy one in both
    revisions, an empty one in [Typed], which asks for the key only. *)
Lemma C2_counterexample :
  (JS.has "value" null_value_output = true
   /\ travelData Untyped null_value_output = null_value_output
   /\ travelData Untyped null_value_output <> JS.get null_value_output "value")
  /\ (JS.has "value" summarised_output = true
      /\ JS.get summarised_output "value" = JStr "oops"
      /\ JSON.parse "oops" = None
      /\ summary sample_host Untyped summarised_output = JStr "All set"
      /\ summary sample_host Typed summarised_output = JStr "All set"
      /\ summary sample_host Untyped summarised_output <> JStr "oops"
      /\ summary sample_host Typed summarised_output <> JStr "oops")
  /\ (JS.has "value" empty_summary_output = true
      /\ JS.get empty_summary_output "value" = JStr "oops"
      /\ summary sample_host Typed empty_summary_output = JStr EmptyString
      /\ summary sample_host Typed empty_summary_output <> JStr "oops").
Proof.
  split; [| split].
  - split; [reflexivity |]. split; [reflexivity |]. discriminate.
  - repeat (split; [reflexivity |]). split; discriminate.
  - repeat (split; [reflexivity |]). discriminate.
Qed.

Lemma C2_witness :
  JS.has "value" (JObj [("value", JStr hotel_text)]) = true
  /\ (forall parsed,
        JSON.parse hotel_text = Some parsed ->
        travelData Untyped (JObj [("value", JStr hotel_text)]) = parsed)
  /\ JS.get (JS.get (travelData Untyped (JObj [("value", JStr hotel_text)]))
                    "accommodation") "HotelName" = JStr "X"
  /\ total sample_host (travelData Untyped (JObj [("value", JStr hotel_text)]))
     = JNum 500
  /\ JS.truthy (JS.get empty_summary_output "summary") = false
  /\ summary sample_host Untyped empty_summary_output = JStr "oops"
  /\ summary sample_host Untyped summarised_output
     = JS.get summarised_output "summary".
Proof.
  destruct (C2_value_entry sample_host Untyped) as [Hgeneral [Hname Htotal]].
  assert (Hhas : JS.has "value" (JObj [("value", JStr hotel_text)]) = true)
    by reflexivity.
  assert (Htruthy : Untyped = Untyped ->
                    JS.truthy (JS.get (JObj [("value", JStr hotel_text)]) "value") = true)
    by (intros _; vm_compute; reflexivity).
  pose proof (Hgeneral [("value", JStr hotel_text)] Hhas Htruthy) as Hhotel.
  cbv zeta in Hhotel. destruct Hhotel as [Hstring _].
  destruct (Hstring hotel_text eq_refl) as [Hparsed _].
  assert (Hoops : JSON.parse "oops" = None) by (vm_compute; reflexivity).
  pose proof (Hgeneral [("value", JStr "oops"); ("summary", JStr EmptyString)]
                eq_refl (fun _ => eq_refl)) as Hempty.
  cbv zeta in Hempty. destruct Hempty as [Hraw _].
  destruct (Hraw "oops" eq_refl) as [_ Hfailed].
  destruct (Hfailed Hoops) as (_ & Hshown_raw & _).
  pose proof (Hgeneral [("value", JStr "oops"); ("summary", JStr "All set")]
                eq_refl (fun _ => eq_refl)) as Hset.
  cbv zeta in Hset. destruct Hset as [Hset _].
  destruct (Hset "oops" eq_refl) as [_ Hfailed'].
  destruct (Hfailed' Hoops) as (_ & _ & Hshown_summary).
  split; [exact Hhas |]. split; [exact Hparsed |].
  split; [exact Hname |]. split; [exact Htotal |].
  split; [reflexivity |].
  split; [exact (Hshown_raw eq_refl) | exact (Hshown_summary eq_refl)].
Defined.


Lemma C5_witness :
  JSON.parse "Trip booked!" = None
  /\ travelData Typed (JStr "Trip booked!") = JNull
  /\ summary sample_host Typed (JStr "Trip booked!") = JStr "Trip booked!"
  /\ trip_summary (results_view sample_host Typed (planState (state complete_world)))
     = Some (JStr "Trip booked!").
Proof.
  assert (Hparse : JSON.parse "Trip booked!" = None) by (vm_compute; reflexivity).
  destruct (C5_unparsable_string sample_host Typed "Trip booked!" Hparse)
    as (Hdata & Hsummary & Hview).
  assert (Hstate : JS.get (planState (state complete_world)) "state" = JStr "COMPLETE")
    by (vm_compute; reflexivity).
  assert (Hfo : JS.get (planState (state complete_world)) "final_output"
                = JStr "Trip booked!")
    by (vm_compute; reflexivity).
  assert (Hne : "Trip booked!" <> EmptyString) by discriminate.
  destruct (Hview (planState (state complete_world)) Hstate Hfo Hne) as [_ Hshown].
  repeat (split; [assumption |]). exact Hshown.
Defined.

(** The claim C10 as first worded fails at top level: [false] and [0] are
    falsy, so [jsonToMarkdown] returns the empty string for them and never
    reaches the [toString] that would give "false" and a non-empty numeral. *)
Lemma C10_counterexample :
  jsonToMarkdown sample_host (JBool false) = EmptyString
  /\ formatValue sample_host (JBool false) 0 = "false"
  /\ jsonToMarkdown sample_host (JBool false) <> "false"
  /\ jsonToMarkdown sample_host (JNum 0) = EmptyString
  /\ jsonToMarkdown sample_host (JNum 0) <> Number_toString sample_host 0.
Proof.
  split; [reflexivity |]. split; [reflexivity |]. split; [discriminate |].
  split; [reflexivity | discriminate].
Qed.

Lemma C10_witness :
  (height (JObj [("a", JArr [JNull; JStr "x"])]) < 3)%nat
  /\ jsonToMarkdown_within sample_host 3 (JObj [("a", JArr [JNull; JStr "x"])])
     = Some (jsonToMarkdown sample_host (JObj [("a", JArr [JNull; JStr "x"])]))
  /\ formatValue_within sample_host 2 (JObj [("a", JArr [JNull; JStr "x"])]) 0 = None
  /\ JS.truthy (JObj [("a", JArr [JNull; JStr "x"])]) = true
  /\ jsonToMarkdown sample_host (JObj [("a", JArr [JNull; JStr "x"])])
     = formatValue sample_host (JObj [("a", JArr [JNull; JStr "x"])]) 0.
Proof.
  assert (Hh : (height (JObj [("a", JArr [JNull; JStr "x"])]) < 3)%nat)
    by (vm_compute; lia).
  assert (Hs : (2 <= height (JObj [("a", JArr [JNull; JStr "x"])]))%nat)
    by (vm_compute; lia).
  assert (Ht : JS.truthy (JObj [("a", JArr [JNull; JStr "x"])]) = true) by reflexivity.
  destruct (C10_jsonToMarkdown_terminates sample_host)
    as (Henough & Hexact & _ & _ & _ & _ & _ & Htop & _).
  split; [exact Hh |]. split; [exact (Henough _ _ Hh) |].
  split; [apply Hexact; exact Hs |].
  split; [exact Ht | exact (Htop _ Ht)].
Defined.

Lemma C9_witness :
  reachable complete_world
  /\ 0 <= currentStep (state complete_world) <= 4
  /\ 0 <= currentStep (state (step complete_world (Click PlanAnotherTrip))) <= 4
  /\ currentStep (state (step complete_world (Click Continue))) = 4
  /\ currentStep (state (step initial_world (Click Back))) = 0
  /\ currentStep
       (state (startPlanning_resume (state submitted_world)
                 (Response 200 started_body) submitted_world)) = 3
  /\ currentStep
       (state (pollPlanState_resume (state submitted_world) (JStr "run-1")
                 (Response 200 complete_body) polling_world)) = 4.
Proof.
  destruct C9_currentStep_range as (Hreach & Hkeep & Hmove & Hsubmit & Hpoll & _).
  assert (Hr : reachable complete_world).
  { apply feasible_reachable; [apply reach_init | vm_compute; reflexivity]. }
  pose proof (Hreach complete_world Hr) as Hrange.
  assert (H0 : 0 <= currentStep (state initial_world) <= 4) by (simpl; lia).
  split; [exact Hr |]. split; [exact Hrange |].
  split; [exact (Hkeep complete_world (Click PlanAnotherTrip) Hrange) |].
  split; [exact (proj1 (Hmove complete_world Hrange)) |].
  split; [exact (proj2 (Hmove initial_world H0)) |].
  split.
  - apply (Hsubmit submitted_world (state submitted_world) 200 started_body
                   (JObj [("plan_run_id", JStr "run-1"); ("state", JStr "PREPARING");
                          ("current_step_index", JNum 0); ("outputs", JObj [])]));
      vm_compute; reflexivity.
  - apply (Hpoll polling_world (state submitted_world) (JStr "run-1") 200 complete_body
                 (planState (state complete_world)));
      vm_compute; reflexivity.
Defined.

Lemma C3_witness :
  enabled (run initial_world [Change (EditOrigin "Pune"); Change (EditDestination "Goa")])
          (Click Continue) = true
  /\ currentStep
       (state (step (run initial_world
                       [Change (EditOrigin "Pune"); Change (EditDestination "Goa")])
                    (Click Continue))) <= 2
  /\ enabled polling_world (Settle 1 (Response 200 complete_body)) = true
  /\ currentStep (state polling_world) <> 4
  /\ currentStep (state (step polling_world (Settle 1 (Response 200 complete_body)))) = 4
  /\ (exists n render planRunId status body st,
        Settle 1 (Response 200 complete_body) = Settle n (Response status body)
        /\ find_pending n (pending polling_world) = Some (PollPlanStateK render planRunId)
        /\ ok status = true
        /\ JSON.parse body = Some st
        /\ is_terminal st = true).
Proof.
  destruct C3_results_only_by_terminal_poll as (Hmanual & Honly & Hforce).
  assert (He : enabled (run initial_world
                          [Change (EditOrigin "Pune"); Change (EditDestination "Goa")])
                       (Click Continue) = true) by (vm_compute; reflexivity).
  assert (Hs : enabled polling_world (Settle 1 (Response 200 complete_body)) = true)
    by (vm_compute; reflexivity).
  assert (Hnot : currentStep (state polling_world) <> 4) by (vm_compute; discriminate).
  assert (Hfind : find_pending 1 (pending polling_world)
                  = Some (PollPlanStateK (state submitted_world) (JStr "run-1")))
    by (vm_compute; reflexivity).
  assert (Hok : ok 200 = true) by reflexivity.
  assert (Hparse : JSON.parse complete_body = Some (planState (state complete_world)))
    by (vm_compute; reflexivity).
  assert (Hterm : is_terminal (planState (state complete_world)) = true)
    by (vm_compute; reflexivity).
  destruct (Hforce polling_world 1%nat (state submitted_world) (JStr "run-1") 200
                   complete_body (planState (state complete_world))
                   Hfind Hok Hparse Hterm) as [H4 _].
  split; [exact He |]. split; [exact (proj2 (Hmanual _ He)) |].
  split; [exact Hs |]. split; [exact Hnot |]. split; [exact H4 |].
  exact (Honly polling_world (Settle 1 (Response 200 complete_body)) Hs H4 Hnot).
Defined.

Lemma C6_witness :
  reachable complete_world
  /\ pollingInterval (state complete_world) = Some 1%positive
  /\ currentStep (state (step complete_world (Click PlanAnotherTrip))) = 0
  /\ formData (state (step complete_world (Click PlanAnotherTrip))) = default_formData
  /\ planState (state (step complete_world (Click PlanAnotherTrip))) = JNull
  /\ pollingInterval (state (step complete_world (Click PlanAnotherTrip))) = None
  /\ find_interval 1%positive (intervals (step complete_world (Click PlanAnotherTrip)))
     = None
  /\ intervals (step complete_world (Click PlanAnotherTrip)) = [].
Proof.
  assert (Hr : reachable complete_world).
  { apply feasible_reachable; [apply reach_init | vm_compute; reflexivity]. }
  assert (Hheld : pollingInterval (state complete_world) = Some 1%positive)
    by (vm_compute; reflexivity).
  destruct (C6_reset complete_world) as (Hstep & Hform & Hplan & Hslot & Hclear & Hnone).
  split; [exact Hr |]. split; [exact Hheld |]. split; [exact Hstep |].
  split; [exact Hform |]. split; [exact Hplan |]. split; [exact Hslot |].
  split; [exact (Hclear 1%positive Hheld) | exact (Hnone Hr)].
Defined.

Lemma C7_witness :
  find_pending 1 (pending polling_world)
  = Some (PollPlanStateK (state submitted_world) (JStr "run-1"))
  /\ ok 404 = false
  /\ state (step polling_world (Settle 1 (Response 404 "Not Found"))) = state polling_world
  /\ intervals (step polling_world (Settle 1 (Response 404 "Not Found")))
     = intervals polling_world
  /\ requests (step (step polling_world (Settle 1 (Response 404 "Not Found")))
                    (Tick 1%positive))
     = (requests polling_world ++ [GetPlanState (JStr "run-1")])%list.
Proof.
  assert (Hfind : find_pending 1 (pending polling_world)
                  = Some (PollPlanStateK (state submitted_world) (JStr "run-1")))
    by (vm_compute; reflexivity).
  assert (Hok : ok 404 = false) by reflexivity.
  destruct (C7_poll_failure_skipped polling_world 1%nat (state submitted_world)
              (JStr "run-1") 404 "Not Found" Hfind Hok)
    as (Hstate & Hintervals & Hrequests & _ & Hnext).
  split; [exact Hfind |]. split; [exact Hok |]. split; [exact Hstate |].
  split; [exact Hintervals |].
  rewrite <- Hrequests.
  apply (Hnext 1%positive
               {| interval_render := state submitted_world;
                  interval_planRunId := JStr "run-1" |}).
  vm_compute. reflexivity.
Defined.

Lemma C8_witness :
  find_pending 0 (pending submitted_world) = Some (StartPlanningK (state submitted_world))
  /\ ok 500 = false
  /\ state (step submitted_world (Settle 0 (Response 500 "Internal Server Error")))
     = state submitted_world
  /\ intervals (step submitted_world (Settle 0 (Response 500 "Internal Server Error")))
     = []
  /\ requests (step submitted_world (Settle 0 (Response 500 "Internal Server Error")))
     = [PostPlanStart filled_form].
Proof.
  assert (Hfind : find_pending 0 (pending submitted_world)
                  = Some (StartPlanningK (state submitted_world)))
    by (vm_compute; reflexivity).
  assert (Hok : ok 500 = false) by reflexivity.
  destruct (C8_submission_failure submitted_world 0%nat (state submitted_world)
              500 "Internal Server Error" Hfind Hok)
    as (Hstate & Hintervals & _ & Hrequests & _).
  split; [exact Hfind |]. split; [exact Hok |]. split; [exact Hstate |].
  split; [rewrite Hintervals | rewrite Hrequests]; vm_compute; reflexivity.
Defined.

(* ================================================================== *)
(** * Further properties of the wizard and of the poller *)
(* ================================================================== *)

(** What the rest of an [async] function can do to the form, the step and
    the request log, whatever render it belongs to. *)
Lemma resume_effect (k : continuation) (resp : response) (w : World) :
  let w' := resume k resp w in
  formData (state w') = formData (state w)
  /\ (currentStep (state w') = currentStep (state w)
      \/ currentStep (state w') = 3 \/ currentStep (state w') = 4)
  /\ (requests w' = requests w
      \/ exists planRunId,
           requests w' = (requests w ++ [GetPlanState planRunId])%list)
  /\ (pending w' = pending w
      \/ exists k', pending w' = (pending w ++ [(List.length (requests w), k')])%list).
Proof.
  destruct k as [render | render planRunId]; simpl.
  - unfold startPlanning_resume.
    destruct resp as [| status body]; simpl; [tauto |].
    destruct (ok status); simpl; [| tauto].
    destruct (JSON.parse body) as [st |]; simpl; [| tauto].
    destruct (JS.is_nullish st); simpl; [tauto |].
    unfold startPolling. destruct (pollingInterval render); simpl.
    + split; [reflexivity |]. split; [tauto |]. split; right; eexists; reflexivity.
    + split; [reflexivity |]. split; [tauto |]. split; right; eexists; reflexivity.
  - unfold pollPlanState_resume.
    destruct resp as [| status body]; simpl; [tauto |].
    destruct (ok status); simpl.
    + destruct (JSON.parse body) as [st |]; simpl; [| tauto].
      destruct (JS.is_nullish st); simpl; [tauto |].
      destruct (is_terminal st); simpl; [| tauto].
      destruct (pollingInterval render); simpl; tauto.
    + destruct (status =? 404); simpl; tauto.
Qed.

Lemma form_invariant_initial : form_invariant initial_world.
Proof.
  constructor; simpl; try reflexivity; try lia; try contradiction.
  all: intros H; try destruct H as [H | H]; discriminate H.
Qed.

Lemma valid_form_intro (d : TravelFormData) :
  nonempty (origin d) = true -> nonempty (destination d) = true ->
  nonempty (departure_date d) = true -> nonempty (return_date d) = true ->
  existsb (String.eqb (cabin_class d)) cabin_classes = true ->
  1 <= passengers d <= 8 ->
  valid_form d = true.
Proof.
  intros Ho Hd Hdep Hret Hc Hp. unfold valid_form.
  rewrite Ho, Hd, Hdep, Hret, Hc. simpl.
  apply andb_true_intro. split; [apply Z.leb_le | apply Z.leb_le]; lia.
Qed.

Lemma form_invariant_step (w : World) (e : event) :
  form_invariant w -> enabled w e = true -> form_invariant (step w e).
Proof.
  intros [Hcabin Hpass Hcities Hdates Hsent] Hen.
  unfold step.
  destruct e as [[] | ed | h | n resp]; simpl in Hen.
  - (* Continue *)
    unfold handle_event, onClick, nextStep.
    change (steps_length - 1) with 4.
    assert (Hc : currentStep (state w) = 0 \/ currentStep (state w) = 1) by lia.
    destruct (Z.ltb_spec (currentStep (state w)) 4) as [_ | Hge]; [| lia].
    constructor; rewrite ?state_commit_effects, ?requests_commit_effects;
      simpl; try assumption.
    + intros _. destruct Hc as [Hc | Hc]; [| apply Hcities; lia].
      rewrite Hc in Hen. simpl in Hen. rewrite orb_false_r in Hen.
      apply andb_prop in Hen. destruct Hen as [Ho Hd]. auto.
    + intros H2. assert (Hc1 : currentStep (state w) = 1) by lia.
      rewrite Hc1 in Hen. simpl in Hen.
      apply andb_prop in Hen. destruct Hen as [Ho Hd]. auto.
  - (* Back *)
    unfold handle_event, onClick, prevStep.
    assert (Hc : currentStep (state w) = 1 \/ currentStep (state w) = 2) by lia.
    destruct (Z.ltb_spec 0 (currentStep (state w))) as [_ | Hle]; [| lia].
    constructor; rewrite ?state_commit_effects, ?requests_commit_effects;
      simpl; try assumption.
    + intros _. apply Hcities. exact Hc.
    + intros H2. lia.
  - (* StartPlanning *)
    unfold handle_event, onClick, startPlanning.
    assert (Hc : currentStep (state w) = 2) by lia.
    constructor; rewrite ?state_commit_effects, ?requests_commit_effects;
      simpl; try assumption.
    intros body Hin. apply in_app_iff in Hin.
    destruct Hin as [Hin | [[= <-] | []]]; [apply Hsent, Hin |].
    destruct (Hcities (or_intror Hc)) as [Ho Hd].
    destruct (Hdates Hc) as [Hdep Hret].
    apply valid_form_intro; assumption.
  - (* PlanAnotherTrip *)
    unfold handle_event, onClick, planAnotherTrip.
    constructor; rewrite ?state_commit_effects, ?requests_commit_effects;
      destruct (pollingInterval (state w)); simpl;
      try reflexivity; try lia; try assumption;
      intros H; try destruct H as [H | H]; discriminate H.
  - (* Change *)
    unfold handle_event, onChange.
    constructor; rewrite ?state_commit_effects, ?requests_commit_effects;
      destruct ed; simpl in Hen |- *; try assumption; try lia.
    all: repeat (apply andb_prop in Hen; destruct Hen as [Hen ?]); try assumption.
    all: lia.
  - (* Tick *)
    unfold handle_event.
    destruct (find_interval h (intervals w)) as [cb |];
      [| constructor; rewrite ?state_commit_effects, ?requests_commit_effects;
         assumption].
    unfold pollPlanState.
    constructor; rewrite ?state_commit_effects, ?requests_commit_effects;
      simpl; try assumption.
    intros body Hin. apply in_app_iff in Hin.
    destruct Hin as [Hin | [Hin | []]]; [apply Hsent, Hin | discriminate Hin].
  - (* Settle *)
    unfold handle_event.
    destruct (find_pending n (pending w)) as [k |];
      [| constructor; rewrite ?state_commit_effects, ?requests_commit_effects;
         assumption].
    pose proof (resume_effect k resp (settled n w)) as Hr.
    cbv zeta in Hr. simpl in Hr. destruct Hr as (Hf & Hc & Hq & _).
    constructor; rewrite ?state_commit_effects, ?requests_commit_effects;
      rewrite ?Hf; try assumption.
    + intros H12. apply Hcities. destruct Hc as [Hc | [Hc | Hc]]; lia.
    + intros H2. apply Hdates. destruct Hc as [Hc | [Hc | Hc]]; lia.
    + intros body Hin. destruct Hq as [Hq | [planRunId Hq]]; rewrite Hq in Hin.
      * apply Hsent, Hin.
      * apply in_app_iff in Hin.
        destruct Hin as [Hin | [Hin | []]]; [apply Hsent, Hin | discriminate Hin].
Qed.

Lemma reachable_form_invariant (w : World) : reachable w -> form_invariant w.
Proof.
  induction 1 as [| w e _ IH Hen]; [apply form_invariant_initial |].
  apply form_invariant_step; assumption.
Qed.

(** Every submission the page has sent in a reachable world carried a
    complete form: both cities and both dates filled, one of the four cabin
    classes, one to eight passengers.  The "Continue" buttons are disabled
    while their fields are empty and the fields of a step cannot be edited
    from a later one. *)
Theorem submitted_forms_are_valid (w : World) (body : TravelFormData) :
  reachable w ->
  In (PostPlanStart body) (requests w) ->
  origin body <> EmptyString
  /\ destination body <> EmptyString
  /\ departure_date body <> EmptyString
  /\ return_date body <> EmptyString
  /\ In (cabin_class body) ["economy"; "premiumeconomy"; "business"; "first"]
  /\ 1 <= passengers body <= 8.
Proof.
  intros Hreach Hin.
  pose proof (form_sent w (reachable_form_invariant w Hreach) body Hin) as Hv.
  unfold valid_form in Hv.
  repeat (apply andb_prop in Hv; destruct Hv as [Hv ?]).
  assert (Hne : forall s, nonempty s = true -> s <> EmptyString).
  { intros s Hs ->. discriminate Hs. }
  repeat (split; [apply Hne; assumption |]).
  split; [| lia].
  match goal with
  | H : existsb _ cabin_classes = true |- _ =>
      apply existsb_exists in H; destruct H as (c & Hc & Heq)
  end.
  apply String.eqb_eq in Heq. rewrite Heq. exact Hc.
Qed.

Lemma submitted_forms_are_valid_witness :
  reachable complete_world
  /\ In (PostPlanStart filled_form) (requests complete_world)
  /\ origin filled_form <> EmptyString
  /\ 1 <= passengers filled_form <= 8.
Proof.
  assert (Hr : reachable complete_world).
  { apply feasible_reachable; [apply reach_init | vm_compute; reflexivity]. }
  assert (Hin : In (PostPlanStart filled_form) (requests complete_world)).
  { vm_compute. left. reflexivity. }
  destruct (submitted_forms_are_valid complete_world filled_form Hr Hin)
    as (Ho & _ & _ & _ & _ & Hp).
  split; [exact Hr |]. split; [exact Hin |]. split; [exact Ho | exact Hp].
Defined.

(** "Back" undoes "Continue" and, in a reachable world, "Continue" undoes
    "Back": the four state slots come back as they were, and the second
    button is on screen and enabled after the first. *)
Theorem navigation_round_trip (w : World) :
  reachable w ->
  (enabled w (Click Continue) = true ->
   enabled (step w (Click Continue)) (Click Back) = true
   /\ state (step (step w (Click Continue)) (Click Back)) = state w)
  /\ (enabled w (Click Back) = true ->
      enabled (step w (Click Back)) (Click Continue) = true
      /\ state (step (step w (Click Back)) (Click Continue)) = state w).
Proof.
  intros Hreach.
  pose proof (reachable_form_invariant w Hreach) as [_ _ Hcities Hdates _].
  unfold step. simpl. rewrite !state_commit_effects.
  unfold nextStep, prevStep. change (steps_length - 1) with 4.
  destruct (state w) as [cs form plan held] eqn:Hstate. simpl in *.
  split; intros Hen.
  - assert (Hc : cs = 0 \/ cs = 1) by lia.
    destruct Hc as [-> | ->]; simpl; rewrite state_commit_effects; simpl;
      rewrite ?Hstate; auto.
  - assert (Hc : cs = 1 \/ cs = 2) by lia.
    destruct Hc as [-> | ->]; simpl; rewrite state_commit_effects; simpl;
      rewrite ?Hstate; simpl.
    + destruct (Hcities (or_introl eq_refl)) as [-> ->]. simpl. auto.
    + destruct (Hdates eq_refl) as [-> ->]. simpl. auto.
Qed.

Lemma navigation_round_trip_witness :
  reachable (run initial_world [Change (EditOrigin "Pune"); Change (EditDestination "Goa")])
  /\ enabled (run initial_world [Change (EditOrigin "Pune"); Change (EditDestination "Goa")])
             (Click Continue) = true
  /\ state (step (step (run initial_world
                          [Change (EditOrigin "Pune"); Change (EditDestination "Goa")])
                       (Click Continue)) (Click Back))
     = state (run initial_world [Change (EditOrigin "Pune"); Change (EditDestination "Goa")]).
Proof.
  assert (Hr : reachable (run initial_world
                            [Change (EditOrigin "Pune"); Change (EditDestination "Goa")])).
  { apply feasible_reachable; [apply reach_init | vm_compute; reflexivity]. }
  assert (He : enabled (run initial_world
                          [Change (EditOrigin "Pune"); Change (EditDestination "Goa")])
                       (Click Continue) = true) by (vm_compute; reflexivity).
  destruct (navigation_round_trip _ Hr) as [Hforth _].
  split; [exact Hr |]. split; [exact He |]. exact (proj2 (Hforth He)).
Defined.













(** A poll whose answer cannot be used is skipped like a failed one: when
    the request is rejected by the network, or the 2xx body is not JSON, or
    the 2xx body is [null], the four state slots, the intervals and the
    request log stay as they are and one error line is logged. *)
Theorem unusable_poll_answer_skipped
        (w : World) (n : nat) (render : State) (planRunId : value) (resp : response) :
  find_pending n (pending w) = Some (PollPlanStateK render planRunId) ->
  (resp = NetworkError
   \/ exists status body,
        resp = Response status body /\ ok status = true
        /\ (JSON.parse body = None \/ JSON.parse body = Some JNull)) ->
  let w' := step w (Settle n resp) in
  state w' = state w
  /\ intervals w' = intervals w
  /\ requests w' = requests w
  /\ console w' = (console w ++ ["❌ Error polling plan state:"])%list.
Proof.
  intros Hfind Hresp. cbv zeta.
  assert (Hstep : step w (Settle n resp)
                  = console_error "❌ Error polling plan state:" (settled n w)).
  { unfold step. simpl. rewrite Hfind. simpl.
    destruct Hresp as [-> | (status & body & -> & Hok & [Hparse | Hparse])];
      unfold pollPlanState_resume; rewrite ?Hok, ?Hparse; simpl;
      apply commit_effects_same; reflexivity. }
  rewrite Hstep. simpl. auto.
Qed.

Lemma unusable_poll_answer_skipped_witness :
  find_pending 1 (pending polling_world)
  = Some (PollPlanStateK (state submitted_world) (JStr "run-1"))
  /\ JSON.parse "null" = Some JNull
  /\ state (step polling_world (Settle 1 (Response 200 "null"))) = state polling_world
  /\ intervals (step polling_world (Settle 1 (Response 200 "<html>")))
     = intervals polling_world.
Proof.
  assert (Hfind : find_pending 1 (pending polling_world)
                  = Some (PollPlanStateK (state submitted_world) (JStr "run-1")))
    by (vm_compute; reflexivity).
  assert (Hnull : JSON.parse "null" = Some JNull) by (vm_compute; reflexivity).
  assert (Hhtml : JSON.parse "<html>" = None) by (vm_compute; reflexivity).
  destruct (unusable_poll_answer_skipped polling_world 1%nat (state submitted_world)
              (JStr "run-1") (Response 200 "null") Hfind) as (Hstate & _).
  { right. exists 200, "null". auto. }
  destruct (unusable_poll_answer_skipped polling_world 1%nat (state submitted_world)
              (JStr "run-1") (Response 200 "<html>") Hfind) as (_ & Hint & _).
  { right. exists 200, "<html>". auto. }
  split; [exact Hfind |]. split; [exact Hnull |]. split; [exact Hstate | exact Hint].
Defined.

(** A submission whose answer cannot be used starts nothing.  When the
    request is rejected by the network or the 2xx body is not JSON, the
    state slots are as before.  When the 2xx body is [null], [planState] is
    set to [null] before the read of [plan_run_id] throws; the step and the
    form are as before.  In all three cases no interval is created and no
    status request goes out. *)
Theorem unusable_submission_answer
        (w : World) (n : nat) (render : State) (resp : response) :
  find_pending n (pending w) = Some (StartPlanningK render) ->
  let w' := step w (Settle n resp) in
  ((resp = NetworkError
    \/ exists status body,
         resp = Response status body /\ ok status = true /\ JSON.parse body = None) ->
   state w' = state w /\ intervals w' = intervals w /\ requests w' = requests w)
  /\ ((exists status body,
         resp = Response status body /\ ok status = true
         /\ JSON.parse body = Some JNull) ->
      planState (state w') = JNull
      /\ currentStep (state w') = currentStep (state w)
      /\ formData (state w') = formData (state w)
      /\ pollingInterval (state w') = pollingInterval (state w)
      /\ intervals w' = intervals w
      /\ requests w' = requests w).
Proof.
  intros Hfind. cbv zeta. unfold step. simpl. rewrite Hfind. simpl. split.
  - intros [-> | (status & body & -> & Hok & Hparse)];
      unfold startPlanning_resume; rewrite ?Hok, ?Hparse; simpl;
      rewrite commit_effects_same by reflexivity; simpl; auto.
  - intros (status & body & -> & Hok & Hparse).
    unfold startPlanning_resume. rewrite Hok, Hparse. simpl.
    rewrite commit_effects_same by reflexivity. simpl. auto 10.
Qed.

Lemma unusable_submission_answer_witness :
  find_pending 0 (pending submitted_world) = Some (StartPlanningK (state submitted_world))
  /\ JSON.parse "null" = Some JNull
  /\ planState (state (step submitted_world (Settle 0 (Response 200 "null")))) = JNull
  /\ currentStep (state (step submitted_world (Settle 0 (Response 200 "null")))) = 2
  /\ intervals (step submitted_world (Settle 0 NetworkError)) = [].
Proof.
  assert (Hfind : find_pending 0 (pending submitted_world)
                  = Some (StartPlanningK (state submitted_world)))
    by (vm_compute; reflexivity).
  assert (Hnull : JSON.parse "null" = Some JNull) by (vm_compute; reflexivity).
  destruct (unusable_submission_answer submitted_world 0%nat (state submitted_world)
              (Response 200 "null") Hfind) as [_ Hb].
  destruct (unusable_submission_answer submitted_world 0%nat (state submitted_world)
              NetworkError Hfind) as [Ha _].
  destruct Hb as (Hplan & Hstep & _).
  { exists 200, "null". auto. }
  destruct (Ha (or_introl eq_refl)) as (_ & Hint & _).
  split; [exact Hfind |]. split; [exact Hnull |]. split; [exact Hplan |].
  split; [rewrite Hstep | rewrite Hint]; vm_compute; reflexivity.
Defined.



(** One turn of the event loop sends at most one request, and the log only
    grows.  A submission is sent by the click on "Start Planning" only, with
    the form as it stands; a status request by a tick or by the answer to a
    submission, never by a click, an edit or the answer to a poll. *)
Theorem one_request_per_event (w : World) (e : event) :
  requests (step w e) = requests w
  \/ (e = Click StartPlanning
      /\ requests (step w e)
         = (requests w ++ [PostPlanStart (formData (state w))])%list)
  \/ (exists planRunId,
        requests (step w e) = (requests w ++ [GetPlanState planRunId])%list
        /\ ((exists h, e = Tick h)
            \/ exists n resp render,
                 e = Settle n resp
                 /\ find_pending n (pending w) = Some (StartPlanningK render))).
Proof.
  unfold step. rewrite requests_commit_effects.
  destruct e as [[] | ed | h | n resp]; simpl.
  - left. unfold nextStep. destruct (_ <? _); reflexivity.
  - left. unfold prevStep. destruct (_ <? _); reflexivity.
  - right. left. split; reflexivity.
  - left. unfold planAnotherTrip. destruct (pollingInterval (state w)); reflexivity.
  - left. destruct ed; reflexivity.
  - destruct (find_interval h (intervals w)) as [cb |]; [| left; reflexivity].
    right. right. exists (interval_planRunId cb). split; [reflexivity |].
    left. exists h. reflexivity.
  - destruct (find_pending n (pending w)) as [[render | render planRunId] |] eqn:Hfind;
      [| | left; reflexivity]; simpl.
    + unfold startPlanning_resume.
      destruct resp as [| status body]; simpl; [left; reflexivity |].
      destruct (ok status); simpl; [| left; reflexivity].
      destruct (JSON.parse body) as [st |]; simpl; [| left; reflexivity].
      destruct (JS.is_nullish st); simpl; [left; reflexivity |].
      right. right. exists (JS.get st "plan_run_id"). split.
      * unfold startPolling. destruct (pollingInterval render); reflexivity.
      * right. exists n, (Response status body), render. auto.
    + left. unfold pollPlanState_resume.
      destruct resp as [| status body]; simpl; [reflexivity |].
      destruct (ok status); simpl.
      * destruct (JSON.parse body) as [st |]; simpl; [| reflexivity].
        destruct (JS.is_nullish st); simpl; [reflexivity |].
        destruct (is_terminal st); simpl; [| reflexivity].
        destruct (pollingInterval render); reflexivity.
      * destruct (status =? 404); reflexivity.
Qed.

(** Neither an answer from the service, nor a tick, nor the navigation
    touches the form: [formData] changes only when a field is edited or
    "Plan Another Trip" is clicked. *)
Theorem form_changes_only_by_edit_or_reset (w : World) (e : event) :
  formData (state (step w e)) <> formData (state w) ->
  (exists ed, e = Change ed) \/ e = Click PlanAnotherTrip.
Proof.
  intros Hdiff. unfold step in Hdiff. rewrite state_commit_effects in Hdiff.
  destruct e as [[] | ed | h | n resp]; simpl in Hdiff.
  - exfalso. apply Hdiff. unfold nextStep. destruct (_ <? _); reflexivity.
  - exfalso. apply Hdiff. unfold prevStep. destruct (_ <? _); reflexivity.
  - exfalso. apply Hdiff. reflexivity.
  - right. reflexivity.
  - left. exists ed. reflexivity.
  - exfalso. apply Hdiff. destruct (find_interval h (intervals w)); reflexivity.
  - exfalso. apply Hdiff.
    destruct (find_pending n (pending w)) as [k |]; [| reflexivity].
    exact (proj1 (resume_effect k resp (settled n w))).
Qed.

Lemma form_changes_only_by_edit_or_reset_witness :
  formData (state (step initial_world (Change (EditOrigin "Pune"))))
  <> formData (state initial_world)
  /\ ((exists ed, Change (EditOrigin "Pune") = Change ed)
      \/ Change (EditOrigin "Pune") = Click PlanAnotherTrip).
Proof.
  assert (Hdiff : formData (state (step initial_world (Change (EditOrigin "Pune"))))
                  <> formData (state initial_world))
    by (vm_compute; discriminate).
  split; [exact Hdiff |].
  exact (form_changes_only_by_edit_or_reset initial_world (Change (EditOrigin "Pune")) Hdiff).
Defined.

(** "Start Planning" stays on screen and enabled after it was clicked: a
    second click before the answer sends the same form a second time. *)
Theorem double_click_submits_twice (w : World) :
  enabled w (Click StartPlanning) = true ->
  enabled (step w (Click StartPlanning)) (Click StartPlanning) = true
  /\ requests (step (step w (Click StartPlanning)) (Click StartPlanning))
     = (requests w ++ [PostPlanStart (formData (state w));
                       PostPlanStart (formData (state w))])%list
  /\ List.length (pending (step (step w (Click StartPlanning)) (Click StartPlanning)))
     = S (S (List.length (pending w))).
Proof.
  intros Hen. unfold step. simpl.
  rewrite !commit_effects_same by reflexivity. simpl.
  split; [exact Hen |]. split.
  - rewrite <- app_assoc. reflexivity.
  - rewrite !length_app. simpl. lia.
Qed.

Lemma double_click_submits_twice_witness :
  enabled (run initial_world
             [Change (EditOrigin "Pune"); Change (EditDestination "Goa"); Click Continue;
              Change (EditDepartureDate "2025-03-15"); Change (EditReturnDate "2025-03-20");
              Click Continue])
          (Click StartPlanning) = true
  /\ requests double_click_world
     = [PostPlanStart filled_form; PostPlanStart filled_form].
Proof.
  assert (He : enabled (run initial_world
                          [Change (EditOrigin "Pune"); Change (EditDestination "Goa");
                           Click Continue; Change (EditDepartureDate "2025-03-15");
                           Change (EditReturnDate "2025-03-20"); Click Continue])
                       (Click StartPlanning) = true) by (vm_compute; reflexivity).
  destruct (double_click_submits_twice _ He) as (_ & Hreq & _).
  split; [exact He |]. exact Hreq.
Defined.

(** The rest of an [async] function sends a request exactly when it leaves
    one in flight. *)
Lemma resume_fetches (k : continuation) (resp : response) (w : World) :
  let w' := resume k resp w in
  (requests w' = requests w /\ pending w' = pending w)
  \/ exists rq k',
       requests w' = (requests w ++ [rq])%list
       /\ pending w' = (pending w ++ [(List.length (requests w), k')])%list.
Proof.
  destruct k as [render | render planRunId]; simpl.
  - unfold startPlanning_resume.
    destruct resp as [| status body]; simpl; [tauto |].
    destruct (ok status); simpl; [| tauto].
    destruct (JSON.parse body) as [st |]; simpl; [| tauto].
    destruct (JS.is_nullish st); simpl; [tauto |].
    right. unfold startPolling.
    destruct (pollingInterval render); simpl; eexists; eexists; split; reflexivity.
  - left. unfold pollPlanState_resume.
    destruct resp as [| status body]; simpl; [tauto |].
    destruct (ok status); simpl.
    + destruct (JSON.parse body) as [st |]; simpl; [| tauto].
      destruct (JS.is_nullish st); simpl; [tauto |].
      destruct (is_terminal st); simpl; [| tauto].
      destruct (pollingInterval render); simpl; tauto.
    + destruct (status =? 404); simpl; tauto.
Qed.

Lemma pending_commit_effects (before : State) (w : World) :
  pending (commit_effects before w) = pending w.
Proof.
  unfold commit_effects.
  destruct (same_handle _ _); [reflexivity |].
  destruct (pollingInterval before); reflexivity.
Qed.

Lemma pending_sent_grow (w : World) (rq : request) (k : continuation)
      (l : list (nat * continuation)) :
  (forall n k0, In (n, k0) l -> (n < List.length (requests w))%nat) ->
  forall n k0,
    In (n, k0) (l ++ [(List.length (requests w), k)])%list ->
    (n < List.length (requests w ++ [rq]))%nat.
Proof.
  intros Hl n k0 Hin. rewrite length_app. simpl.
  apply in_app_iff in Hin. destruct Hin as [Hin | [[= <- _] | []]]; [| lia].
  apply Hl in Hin. lia.
Qed.

Lemma reachable_pending_sent (w : World) : reachable w -> pending_sent w.
Proof.
  induction 1 as [| w e _ IH Hen]; [intros n k []|].
  unfold pending_sent, step in *.
  rewrite pending_commit_effects, requests_commit_effects.
  destruct e as [[] | ed | h | n resp]; simpl.
  - unfold nextStep. destruct (_ <? _); exact IH.
  - unfold prevStep. destruct (_ <? _); exact IH.
  - apply pending_sent_grow. exact IH.
  - unfold planAnotherTrip. destruct (pollingInterval (state w)); exact IH.
  - destruct ed; exact IH.
  - destruct (find_interval h (intervals w)) as [cb |]; [| exact IH].
    apply pending_sent_grow. exact IH.
  - destruct (find_pending n (pending w)) as [k |]; [| exact IH].
    assert (Hfiltered : forall m k0,
               In (m, k0) (pending (settled n w)) ->
               (m < List.length (requests (settled n w)))%nat).
    { simpl. intros m k0 Hin. apply filter_In in Hin. eapply IH, Hin. }
    destruct (resume_fetches k resp (settled n w))
      as [[Hr Hp] | (rq & k' & Hr & Hp)]; rewrite Hr, Hp.
    + exact Hfiltered.
    + apply pending_sent_grow. exact Hfiltered.
Qed.

Lemma find_pending_filtered (n : nat) (l : list (nat * continuation)) :
  find_pending n (filter (fun e : nat * continuation => negb (Nat.eqb (fst e) n)) l)
  = None.
Proof.
  induction l as [| [m k] l IH]; simpl; [reflexivity |].
  destruct (Nat.eqb_spec m n) as [-> | Hne]; simpl; [exact IH |].
  destruct (Nat.eqb_spec m n) as [-> | _]; [contradiction | exact IH].
Qed.

Lemma find_pending_app_fresh (n m : nat) (k : continuation)
      (l : list (nat * continuation)) :
  n <> m -> find_pending n (l ++ [(m, k)])%list = find_pending n l.
Proof.
  intros Hne. induction l as [| [m' k'] l IH]; simpl.
  - destruct (Nat.eqb_spec m n) as [-> | _]; [contradiction | reflexivity].
  - destruct (Nat.eqb m' n); [reflexivity | exact IH].
Qed.

(** A request is answered at most once: in a reachable world, once the
    answer to a request has been handled, no further answer to it can be
    delivered, whatever the handling did. *)
Theorem request_answered_once (w : World) (n : nat) (resp resp' : response) :
  reachable w ->
  enabled w (Settle n resp) = true ->
  enabled (step w (Settle n resp)) (Settle n resp') = false.
Proof.
  intros Hreach Hen.
  pose proof (reachable_pending_sent w Hreach) as Hsent.
  simpl in Hen |- *. unfold step. rewrite pending_commit_effects. simpl.
  destruct (find_pending n (pending w)) as [k |] eqn:Hfind; [| discriminate Hen].
  pose proof (Hsent n k (find_pending_In _ _ _ Hfind)) as Hlt.
  destruct (resume_fetches k resp (settled n w))
    as [[_ Hp] | (rq & k' & _ & Hp)]; rewrite Hp; simpl.
  - rewrite find_pending_filtered. reflexivity.
  - rewrite find_pending_app_fresh by lia.
    rewrite find_pending_filtered. reflexivity.
Qed.

Lemma request_answered_once_witness :
  reachable polling_world
  /\ enabled polling_world (Settle 1 (Response 200 complete_body)) = true
  /\ enabled (step polling_world (Settle 1 (Response 200 complete_body)))
             (Settle 1 (Response 200 complete_body)) = false.
Proof.
  assert (Hr : reachable polling_world).
  { apply feasible_reachable; [apply reach_init | vm_compute; reflexivity]. }
  assert (He : enabled polling_world (Settle 1 (Response 200 complete_body)) = true)
    by (vm_compute; reflexivity).
  split; [exact Hr |]. split; [exact He |].
  exact (request_answered_once polling_world 1%nat _ _ Hr He).
Defined.

(** "Plan Another Trip" does not cancel the requests in flight.  If a poll
    is still unanswered when the button is clicked and its answer is
    terminal, that answer is stored and brings the results step back over
    the emptied form. *)
Theorem late_answer_after_reset
        (w : World) (n : nat) (render : State) (planRunId : value)
        (status : Z) (body : string) (st : value) :
  find_pending n (pending w) = Some (PollPlanStateK render planRunId) ->
  ok status = true ->
  JSON.parse body = Some st ->
  is_terminal st = true ->
  let w1 := step w (Click PlanAnotherTrip) in
  let w2 := step w1 (Settle n (Response status body)) in
  pending w1 = pending w
  /\ currentStep (state w1) = 0
  /\ currentStep (state w2) = 4
  /\ planState (state w2) = st
  /\ formData (state w2) = default_formData.
Proof.
  intros Hfind Hok Hparse Hterm. cbv zeta.
  assert (Hp : pending (step w (Click PlanAnotherTrip)) = pending w).
  { unfold step. rewrite pending_commit_effects. simpl.
    unfold planAnotherTrip. destruct (pollingInterval (state w)); reflexivity. }
  assert (Hfind1 : find_pending n (pending (step w (Click PlanAnotherTrip)))
                   = Some (PollPlanStateK render planRunId))
    by (rewrite Hp; exact Hfind).
  destruct (terminal_poll_applied _ n render planRunId status body st
              Hfind1 Hok Hparse Hterm) as [H4 Hst].
  split; [exact Hp |].
  split; [exact (currentStep_step w (Click PlanAnotherTrip)) |].
  split; [exact H4 |]. split; [exact Hst |].
  unfold step at 1. rewrite state_commit_effects. simpl. rewrite Hfind1.
  rewrite (proj1 (resume_effect (PollPlanStateK render planRunId)
                    (Response status body)
                    (settled n (step w (Click PlanAnotherTrip))))).
  simpl. unfold step. rewrite state_commit_effects. simpl.
  unfold planAnotherTrip. destruct (pollingInterval (state w)); reflexivity.
Qed.

Lemma late_answer_after_reset_witness :
  find_pending 1 (pending polling_world)
  = Some (PollPlanStateK (state submitted_world) (JStr "run-1"))
  /\ currentStep (state (step polling_world (Click PlanAnotherTrip))) = 0
  /\ currentStep
       (state (step (step polling_world (Click PlanAnotherTrip))
                    (Settle 1 (Response 200 complete_body)))) = 4.
Proof.
  assert (Hfind : find_pending 1 (pending polling_world)
                  = Some (PollPlanStateK (state submitted_world) (JStr "run-1")))
    by (vm_compute; reflexivity).
  assert (Hparse : JSON.parse complete_body = Some (planState (state complete_world)))
    by (vm_compute; reflexivity).
  assert (Hterm : is_terminal (planState (state complete_world)) = true)
    by (vm_compute; reflexivity).
  destruct (late_answer_after_reset polling_world 1%nat (state submitted_world)
              (JStr "run-1") 200 complete_body _ Hfind eq_refl Hparse Hterm)
    as (_ & H0 & H4 & _).
  split; [exact Hfind |]. split; [exact H0 | exact H4].
Defined.






(* ================================================================== *)
(** * Further properties of the results view *)
(* ================================================================== *)

Section ViewFacts.

Variable host : Host.

Lemma value_guard_agree (final_output : value) :
  (JS.has "value" final_output = true ->
   JS.truthy (JS.get final_output "value") = true) ->
  value_guard Untyped final_output = value_guard Typed final_output.
Proof.
  intros H. destruct final_output; try reflexivity.
  - simpl. destruct b; reflexivity.
  - simpl. rewrite andb_false_r. reflexivity.
  - simpl. rewrite andb_false_r. reflexivity.
  - change (JS.truthy (JS.get (JObj props) "value") = JS.has "value" (JObj props)).
    destruct (JS.has "value" (JObj props)) eqn:Hhas.
    + apply H. reflexivity.
    + rewrite (lookup_has _ _ Hhas). reflexivity.
Qed.

Lemma summary_guard_agree (final_output : value) :
  (JS.has "summary" final_output = true ->
   JS.truthy (JS.get final_output "summary") = true) ->
  summary_guard Untyped final_output = summary_guard Typed final_output.
Proof.
  intros H. destruct final_output; try reflexivity.
  change (JS.truthy (JS.get (JObj props) "summary") = JS.has "summary" (JObj props)).
  destruct (JS.has "summary" (JObj props)) eqn:Hhas.
  - apply H. reflexivity.
  - rewrite (lookup_has _ _ Hhas). reflexivity.
Qed.

(** The two revisions resolve [final_output] alike as long as its [value]
    and [summary] entries, when present, are truthy: the same [travelData],
    the same summary.  They can differ only on an entry that is present and
    falsy. *)
Theorem revisions_agree (final_output : value) :
  (JS.has "value" final_output = true ->
   JS.truthy (JS.get final_output "value") = true) ->
  travelData Untyped final_output = travelData Typed final_output
  /\ ((JS.has "summary" final_output = true ->
       JS.truthy (JS.get final_output "summary") = true) ->
      summary host Untyped final_output = summary host Typed final_output).
Proof.
  intros Hvalue. pose proof (value_guard_agree final_output Hvalue) as Hg.
  split.
  - unfold travelData. rewrite Hg. reflexivity.
  - intros Hsummary. unfold summary.
    rewrite Hg, (summary_guard_agree final_output Hsummary). reflexivity.
Qed.

(** Where the revisions part: an object whose [value] entry is present but
    falsy ([null], 0, [false], the empty string).  The untyped revision takes
    the object itself as [travelData] and builds cards from it; the typed
    one takes the entry, which is falsy, and builds none. *)
Theorem revisions_differ_on_falsy_value (props : list (string * value)) :
  JS.has "value" (JObj props) = true ->
  JS.truthy (JS.get (JObj props) "value") = false ->
  travelData Untyped (JObj props) = JObj props
  /\ JS.truthy (travelData Untyped (JObj props)) = true
  /\ JS.truthy (travelData Typed (JObj props)) = false.
Proof.
  intros Hhas Hfalsy.
  assert (Hu : travelData Untyped (JObj props) = JObj props).
  { unfold travelData, value_guard, opt_get. simpl JS.is_nullish. cbv iota.
    rewrite Hfalsy. reflexivity. }
  split; [exact Hu |]. split; [rewrite Hu; reflexivity |].
  unfold travelData, value_guard. rewrite Hhas. simpl andb. cbv iota.
  destruct (JS.get (JObj props) "value") as [| | b | q | | s | items | entries];
    try exact Hfalsy; try reflexivity.
  destruct s as [| c rest]; [reflexivity | discriminate Hfalsy].
Qed.

End ViewFacts.

Lemma revisions_agree_witness :
  JS.has "value" (JObj [("value", JStr hotel_text)]) = true
  /\ travelData Untyped (JObj [("value", JStr hotel_text)])
     = travelData Typed (JObj [("value", JStr hotel_text)])
  /\ summary sample_host Untyped (JObj [("value", JStr hotel_text)])
     = summary sample_host Typed (JObj [("value", JStr hotel_text)]).
Proof.
  assert (Hv : JS.has "value" (JObj [("value", JStr hotel_text)]) = true ->
               JS.truthy (JS.get (JObj [("value", JStr hotel_text)]) "value") = true)
    by (intros _; vm_compute; reflexivity).
  assert (Hs : JS.has "summary" (JObj [("value", JStr hotel_text)]) = true ->
               JS.truthy (JS.get (JObj [("value", JStr hotel_text)]) "summary") = true)
    by (intros H; vm_compute in H; discriminate H).
  destruct (revisions_agree sample_host (JObj [("value", JStr hotel_text)]) Hv)
    as [Hdata Hsum].
  split; [reflexivity |]. split; [exact Hdata | exact (Hsum Hs)].
Defined.

Lemma revisions_differ_on_falsy_value_witness :
  JS.has "value" null_value_output = true
  /\ JS.truthy (JS.get null_value_output "value") = false
  /\ JS.truthy (travelData Untyped null_value_output) = true
  /\ JS.truthy (travelData Typed null_value_output) = false.
Proof.
  assert (Hh : JS.has "value" (JObj [("value", JNull)]) = true) by reflexivity.
  assert (Hf : JS.truthy (JS.get (JObj [("value", JNull)]) "value") = false)
    by reflexivity.
  destruct (revisions_differ_on_falsy_value [("value", JNull)] Hh Hf) as (_ & Hu & Ht).
  split; [exact Hh |]. split; [exact Hf |]. split; [exact Hu | exact Ht].
Defined.

Section ViewPanels.

Variable host : Host.

Lemma not_complete_and_failed (v : value) :
  JS.is_string v "COMPLETE" = true -> JS.is_string v "FAILED" = false.
Proof.
  destruct v; simpl; try discriminate.
  intros H. apply String.eqb_eq in H. rewrite H. reflexivity.
Qed.

(** The panels of the results view exclude one another.  The failure
    message is shown alone; a plan that is COMPLETE shows no failure and
    exactly one of the summary panel and the "Plan Details" fallback; cards
    appear only beside the summary panel; and a plan that is neither
    COMPLETE nor FAILED (or no plan at all) shows no panel. *)
Theorem results_view_panels (r : revision) (planState : value) :
  let v := results_view host r planState in
  (failure v <> None ->
   cards v = None /\ trip_summary v = None /\ plan_details v = None)
  /\ (cards v <> None -> trip_summary v <> None)
  /\ (trip_summary v <> None -> plan_details v = None)
  /\ (JS.get planState "state" = JStr "COMPLETE" ->
      failure v = None
      /\ (trip_summary v = None <-> plan_details v <> None))
  /\ (JS.is_string (JS.get planState "state") "COMPLETE" = false ->
      JS.is_string (JS.get planState "state") "FAILED" = false ->
      cards v = None /\ trip_summary v = None
      /\ plan_details v = None /\ failure v = None).
Proof.
  cbv zeta. unfold results_view.
  assert (Hget : opt_get planState "state" = JS.get planState "state")
    by (destruct planState; reflexivity).
  rewrite Hget. simpl.
  pose proof (not_complete_and_failed (JS.get planState "state")) as Hex.
  destruct (JS.is_string (JS.get planState "state") "COMPLETE") eqn:Hc;
    destruct (JS.is_string (JS.get planState "state") "FAILED") eqn:Hf;
    try (specialize (Hex eq_refl); discriminate Hex); simpl.
  - destruct (JS.truthy (JS.get planState "final_output")); simpl;
      destruct (JS.truthy (travelData r (JS.get planState "final_output")));
      repeat split; intros; try congruence; try discriminate; auto.
  - repeat split; intros; try congruence; try discriminate;
      match goal with
      | H : JS.get planState "state" = JStr "COMPLETE" |- _ =>
          rewrite H in Hc; discriminate Hc
      end.
  - repeat split; intros; try congruence; try discriminate;
      match goal with
      | H : JS.get planState "state" = JStr "COMPLETE" |- _ =>
          rewrite H in Hc; discriminate Hc
      end.
Qed.

Lemma failed_view_message (r : revision) (planState : value) (msg : string) :
  JS.get planState "state" = JStr "FAILED" ->
  JS.get planState "error" = JStr msg ->
  msg <> EmptyString ->
  cards (results_view host r planState) = None
  /\ trip_summary (results_view host r planState) = None
  /\ failure (results_view host r planState) = Some (JStr msg).
Proof.
  intros Hstate Hmsg Hne. unfold results_view.
  assert (Hget : opt_get planState "state" = JS.get planState "state")
    by (destruct planState; reflexivity).
  rewrite Hget, Hstate, Hmsg. simpl. unfold JS.or. simpl.
  destruct (String.eqb_spec msg EmptyString); [contradiction | auto].
Qed.

(** A FAILED plan shows one thing: its [error] when that is truthy, the
    fixed fallback sentence when [error] is missing, [null] or empty. *)
Theorem failed_plan_view (r : revision) (planState : value) :
  JS.get planState "state" = JStr "FAILED" ->
  let v := results_view host r planState in
  cards v = None /\ trip_summary v = None /\ plan_details v = None
  /\ failure v
     = Some (if JS.truthy (JS.get planState "error")
             then JS.get planState "error"
             else JStr (failure_fallback r))
  /\ (forall msg, JS.get planState "error" = JStr msg -> msg <> EmptyString ->
                  failure v = Some (JStr msg))
  /\ (JS.has "error" planState = false ->
      failure v = Some (JStr (failure_fallback r))).
Proof.
  intros Hstate. cbv zeta. unfold results_view.
  assert (Hget : opt_get planState "state" = JS.get planState "state")
    by (destruct planState; reflexivity).
  rewrite Hget, Hstate. simpl. unfold JS.or.
  repeat (split; [reflexivity |]). split.
  - intros msg Hmsg Hne. rewrite Hmsg. simpl.
    destruct (String.eqb_spec msg EmptyString); [contradiction | reflexivity].
  - intros Hno. destruct planState; try discriminate Hstate.
    rewrite (lookup_has _ _ Hno). reflexivity.
Qed.

(** From the answer to the screen: when the answer to a poll says FAILED
    with a non-empty [error], the results step is shown and its only panel
    is that error text. *)
Theorem failed_answer_shows_error
        (r : revision) (w : World) (n : nat) (render : State) (planRunId : value)
        (status : Z) (body : string) (st : value) (msg : string) :
  find_pending n (pending w) = Some (PollPlanStateK render planRunId) ->
  ok status = true ->
  JSON.parse body = Some st ->
  JS.get st "state" = JStr "FAILED" ->
  JS.get st "error" = JStr msg ->
  msg <> EmptyString ->
  let w' := step w (Settle n (Response status body)) in
  currentStep (state w') = 4
  /\ failure (results_view host r (planState (state w'))) = Some (JStr msg)
  /\ cards (results_view host r (planState (state w'))) = None
  /\ trip_summary (results_view host r (planState (state w'))) = None.
Proof.
  intros Hfind Hok Hparse Hstate Herror Hne. cbv zeta.
  assert (Hterm : is_terminal st = true).
  { unfold is_terminal. rewrite Hstate. reflexivity. }
  destruct (terminal_poll_applied w n render planRunId status body st
              Hfind Hok Hparse Hterm) as [H4 Hst].
  rewrite Hst. split; [exact H4 |].
  destruct (failed_view_message r st msg Hstate Herror Hne) as (Hc & Hs & Hmsg).
  split; [exact Hmsg |]. split; assumption.
Qed.

End ViewPanels.

Lemma results_view_panels_witness :
  failure (results_view sample_host Typed
             (JObj [("state", JStr "FAILED"); ("error", JStr "No flights found")]))
  <> None
  /\ cards (results_view sample_host Typed
              (JObj [("state", JStr "FAILED"); ("error", JStr "No flights found")]))
     = None.
Proof.
  assert (Hf : failure (results_view sample_host Typed
                          (JObj [("state", JStr "FAILED");
                                 ("error", JStr "No flights found")])) <> None)
    by (vm_compute; discriminate).
  destruct (results_view_panels sample_host Typed
              (JObj [("state", JStr "FAILED"); ("error", JStr "No flights found")]))
    as (Hfail & _).
  split; [exact Hf | exact (proj1 (Hfail Hf))].
Defined.

Lemma failed_plan_view_witness :
  JS.get (JObj [("state", JStr "FAILED"); ("error", JStr "No flights found")]) "state"
  = JStr "FAILED"
  /\ failure (results_view sample_host Untyped
                (JObj [("state", JStr "FAILED"); ("error", JStr "No flights found")]))
     = Some (JStr "No flights found")
  /\ failure (results_view sample_host Untyped (JObj [("state", JStr "FAILED")]))
     = Some (JStr "An error occurred while planning your trip.").
Proof.
  destruct (failed_plan_view sample_host Untyped
              (JObj [("state", JStr "FAILED"); ("error", JStr "No flights found")])
              eq_refl) as (_ & _ & _ & _ & Hmsg & _).
  destruct (failed_plan_view sample_host Untyped (JObj [("state", JStr "FAILED")])
              eq_refl) as (_ & _ & _ & _ & _ & Hnone).
  split; [reflexivity |].
  split; [apply (Hmsg "No flights found" eq_refl); discriminate | exact (Hnone eq_refl)].
Defined.

Lemma failed_answer_shows_error_witness :
  find_pending 1 (pending polling_world)
  = Some (PollPlanStateK (state submitted_world) (JStr "run-1"))
  /\ currentStep (state (step polling_world (Settle 1 (Response 200 failed_body)))) = 4
  /\ failure (results_view sample_host Untyped
                (planState (state (step polling_world
                                     (Settle 1 (Response 200 failed_body))))))
     = Some (JStr "No flights found").
Proof.
  assert (Hfind : find_pending 1 (pending polling_world)
                  = Some (PollPlanStateK (state submitted_world) (JStr "run-1")))
    by (vm_compute; reflexivity).
  assert (Hparse : JSON.parse failed_body
                   = Some (JObj [("plan_run_id", JStr "run-1"); ("state", JStr "FAILED");
                                 ("error", JStr "No flights found")]))
    by (vm_compute; reflexivity).
  assert (Hne : "No flights found" <> EmptyString) by discriminate.
  destruct (failed_answer_shows_error sample_host Untyped polling_world 1%nat
              (state submitted_world) (JStr "run-1") 200 failed_body _
              "No flights found" Hfind eq_refl Hparse eq_refl eq_refl Hne)
    as (H4 & Hfail & _).
  split; [exact Hfind |]. split; [exact H4 | exact Hfail].
Defined.

Section Resolution.

Variable host : Host.



Lemma parsed_string_summary (r : revision) (s : string) (parsed : value) :
  JSON.parse s = Some parsed ->
  summary host r (JStr s)
  = (if JS.truthy parsed then JStr (generated_summary host parsed) else JStr s).
Proof.
  intros Hparse. unfold summary. rewrite summary_guard_string, Hparse.
  destruct (JS.truthy parsed); simpl; [reflexivity |].
  rewrite jsonToMarkdown_string. reflexivity.
Qed.


Lemma get_not_object (v : value) (key : string) :
  (forall props, v <> JObj props) -> JS.get v key = JUndefined.
Proof.
  intros H. destruct v; try reflexivity. exfalso. exact (H props eq_refl).
Qed.

(** A [travelData] that is not an object (a JSON-encoded string, a number,
    [true], an array) has no flight and no accommodation: the total is 0
    and the overview is its heading and the zero total, nothing of the value
    itself.  So a [final_output] that is the JSON encoding of a plain
    sentence displays that empty overview, not the sentence. *)
Theorem scalar_travelData_overview (r : revision) (s : string) (parsed : value) :
  JSON.parse s = Some parsed ->
  JS.truthy parsed = true ->
  (forall props, parsed <> JObj props) ->
  total host parsed = JNum 0
  /\ summary host r (JStr s)
     = JStr ("## Travel Plan Overview" ++ newline ++ newline
             ++ "**Total Trip Cost:** ₹" ++ toLocaleString host (JNum 0)).
Proof.
  intros Hparse Htruthy Hscalar.
  assert (Htotal : total host parsed = JNum 0).
  { unfold total. rewrite !(get_not_object parsed _ Hscalar). reflexivity. }
  split; [exact Htotal |].
  rewrite (parsed_string_summary r s parsed Hparse), Htruthy.
  unfold generated_summary. rewrite Htotal.
  rewrite !(get_not_object parsed _ Hscalar). reflexivity.
Qed.




Lemma join_nonempty (sep first : string) (rest : list string) :
  first <> EmptyString -> join sep (first :: rest) <> EmptyString.
Proof.
  intros Hne. destruct first as [| c first']; [contradiction |].
  destruct rest; simpl; discriminate.
Qed.

Lemma formatValue_container_nonempty (v : value) :
  (exists items, v = JArr items) \/ (exists props, v = JObj props) ->
  formatValue host v 0 <> EmptyString.
Proof.
  intros [[items ->] | [props ->]].
  - destruct items as [| item items]; [discriminate |].
    apply join_nonempty. discriminate.
  - destruct props as [| [key val] props]; [discriminate |].
    apply join_nonempty. cbv beta iota.
    destruct (_ && _); discriminate.
Qed.

(** The "Plan Details" fallback is never blank: whenever the view shows it,
    its text is not empty. *)
Theorem plan_details_never_blank (r : revision) (planState : value) (text : string) :
  plan_details (results_view host r planState) = Some text ->
  text <> EmptyString.
Proof.
  intros Hshown.
  assert (Hobj : exists props, planState = JObj props).
  { destruct planState as [| | b | q | | s | items | props];
      try (vm_compute in Hshown; discriminate Hshown).
    exists props. reflexivity. }
  destruct Hobj as [props ->].
  unfold results_view in Hshown. cbn [plan_details] in Hshown.
  change (opt_get (JObj props) "state") with (JS.get (JObj props) "state") in Hshown.
  destruct (JS.is_string (JS.get (JObj props) "state") "COMPLETE");
    [| discriminate Hshown].
  destruct (JS.truthy (JS.get (JObj props) "final_output"));
    [discriminate Hshown |].
  injection Hshown as <-.
  apply (formatValue_container_nonempty (JObj props)).
  right. exists props. reflexivity.
Qed.

End Resolution.



Lemma scalar_travelData_overview_witness :
  JSON.parse (dq "'Trip booked!'") = Some (JStr "Trip booked!")
  /\ total sample_host (JStr "Trip booked!") = JNum 0
  /\ summary sample_host Typed (JStr (dq "'Trip booked!'"))
     = JStr ("## Travel Plan Overview" ++ newline ++ newline
             ++ "**Total Trip Cost:** ₹" ++ "1").
Proof.
  assert (Hp : JSON.parse (dq "'Trip booked!'") = Some (JStr "Trip booked!"))
    by (vm_compute; reflexivity).
  assert (Hn : forall props, JStr "Trip booked!" <> JObj props)
    by (intros props; discriminate).
  destruct (scalar_travelData_overview sample_host Typed (dq "'Trip booked!'")
              (JStr "Trip booked!") Hp eq_refl Hn) as [Ht Hs].
  split; [exact Hp |]. split; [exact Ht | exact Hs].
Defined.


Lemma plan_details_never_blank_witness :
  plan_details (results_view sample_host Untyped (JObj [("state", JStr "COMPLETE")]))
  = Some "**state:** COMPLETE"
  /\ "**state:** COMPLETE" <> EmptyString.
Proof.
  assert (Hs : plan_details (results_view sample_host Untyped
                               (JObj [("state", JStr "COMPLETE")]))
               = Some "**state:** COMPLETE") by reflexivity.
  split; [exact Hs |].
  exact (plan_details_never_blank sample_host Untyped _ _ Hs).
Defined.

(** The progress indicator in a reachable world: the icons of the steps up
    to the current one are highlighted, all four from the processing step
    on; the bar is never wider than 100 percent and is full exactly from the
    processing step on. *)
Theorem progress_indicator (w : World) :
  reachable w ->
  let c := currentStep (state w) in
  highlighted c
  = (repeat true (Z.to_nat (Z.min (c + 1) 4))
       ++ repeat false (4 - Z.to_nat (Z.min (c + 1) 4)))%list
  /\ (highlighted c = [true; true; true; true] <-> 3 <= c)
  /\ Qle 0 (progress_width c)
  /\ Qle (progress_width c) 100
  /\ (Qeq (progress_width c) 100 <-> 3 <= c).
Proof.
  intros Hreach. cbv zeta.
  pose proof (inv_step w (reachable_invariant w Hreach)) as Hrange.
  assert (Hc : currentStep (state w) = 0 \/ currentStep (state w) = 1
               \/ currentStep (state w) = 2 \/ currentStep (state w) = 3
               \/ currentStep (state w) = 4) by lia.
  destruct Hc as [-> | [-> | [-> | [-> | ->]]]];
    (split; [reflexivity |]);
    (split; [split; intros H; try lia; try reflexivity; try discriminate H |]);
    (split; [vm_compute; discriminate |]);
    (split; [vm_compute; discriminate |]);
    split; intros H; try lia; try reflexivity; try (vm_compute in H; discriminate H).
Qed.

Lemma progress_indicator_witness :
  reachable complete_world
  /\ highlighted (currentStep (state complete_world)) = [true; true; true; true]
  /\ Qeq (progress_width (currentStep (state complete_world))) 100.
Proof.
  assert (Hr : reachable complete_world).
  { apply feasible_reachable; [apply reach_init | vm_compute; reflexivity]. }
  destruct (progress_indicator complete_world Hr) as (_ & Hicons & _ & _ & Hfull).
  assert (H3 : 3 <= currentStep (state complete_world)) by (vm_compute; discriminate).
  split; [exact Hr |]. split; [exact (proj2 Hicons H3) | exact (proj2 Hfull H3)].
Defined.

(** The step line of the processing view.  It is shown for IN_PROGRESS
    only.  With a numeric [current_step_index] it shows that number plus
    one; when the answer carries no [current_step_index] it shows [NaN];
    and with a string index [+] concatenates instead of adding. *)
Theorem processing_step_number (host : Host) (planState : value) :
  JS.get planState "state" = JStr "IN_PROGRESS" ->
  (forall q, JS.get planState "current_step_index" = JNum q ->
             processing_view host planState
             = Some (JStr "IN_PROGRESS", Some (JNum (Qred (q + 1)))))
  /\ (JS.has "current_step_index" planState = false ->
      processing_view host planState = Some (JStr "IN_PROGRESS", Some JNaN))
  /\ (forall s, JS.get planState "current_step_index" = JStr s ->
                processing_view host planState
                = Some (JStr "IN_PROGRESS",
                        Some (JStr (s ++ Number_toString host 1)))).
Proof.
  intros Hstate.
  assert (Hobj : exists props, planState = JObj props).
  { destruct planState; try discriminate Hstate. eexists. reflexivity. }
  destruct Hobj as [props ->].
  unfold processing_view. rewrite Hstate. simpl JS.truthy. cbv iota.
  simpl JS.is_string. cbv iota.
  split; [| split].
  - intros q Hq. rewrite Hq. reflexivity.
  - intros Hno. rewrite (lookup_has _ _ Hno). reflexivity.
  - intros s Hs. rewrite Hs. reflexivity.
Qed.

Lemma processing_step_number_witness :
  JS.get (JObj [("state", JStr "IN_PROGRESS"); ("current_step_index", JNum 2)]) "state"
  = JStr "IN_PROGRESS"
  /\ processing_view sample_host
       (JObj [("state", JStr "IN_PROGRESS"); ("current_step_index", JNum 2)])
     = Some (JStr "IN_PROGRESS", Some (JNum 3))
  /\ processing_view sample_host (JObj [("state", JStr "IN_PROGRESS")])
     = Some (JStr "IN_PROGRESS", Some JNaN).
Proof.
  destruct (processing_step_number sample_host
              (JObj [("state", JStr "IN_PROGRESS"); ("current_step_index", JNum 2)])
              eq_refl) as (Hnum & _).
  destruct (processing_step_number sample_host (JObj [("state", JStr "IN_PROGRESS")])
              eq_refl) as (_ & Hnan & _).
  split; [reflexivity |].
  split; [exact (Hnum 2%Q eq_refl) | exact (Hnan eq_refl)].
Defined.

(** The code that handles an answer never clears an interval.  In a
    reachable world the closures waiting for an answer all saw
    [pollingInterval] as [null], so the [clearInterval] calls of
    [pollPlanState] and of [startPolling] are never reached: every interval
    active before the handler runs is active after it. *)
Theorem answer_handlers_never_clear
        (w : World) (n : nat) (k : continuation) (resp : response)
        (h : handle) (cb : Interval) :
  reachable w ->
  find_pending n (pending w) = Some k ->
  pollingInterval (continuation_render k) = None
  /\ (In (h, cb) (intervals w) ->
      In (h, cb) (intervals (resume k resp (settled n w)))).
Proof.
  intros Hreach Hfind.
  pose proof (reachable_invariant w Hreach) as Hinv.
  pose proof (inv_pending w Hinv _ _ (find_pending_In _ _ _ Hfind)) as Hnone.
  split; [exact Hnone |]. intros Hin.
  destruct k as [render | render planRunId]; simpl in Hnone; simpl.
  - destruct (startPlanning_resume_cases render resp (settled n w) Hnone)
      as [H | [planRunId H]]; simpl in H; destruct H as (Hi & _); rewrite Hi.
    + exact Hin.
    + apply in_app_iff. left. exact Hin.
  - destruct (pollPlanState_resume_frame render planRunId resp (settled n w) Hnone)
      as (Hi & _). simpl in Hi. rewrite Hi. exact Hin.
Qed.

Lemma answer_handlers_never_clear_witness :
  reachable polling_world
  /\ find_pending 1 (pending polling_world)
     = Some (PollPlanStateK (state submitted_world) (JStr "run-1"))
  /\ In (1%positive,
         {| interval_render := state submitted_world;
            interval_planRunId := JStr "run-1" |})
        (intervals (resume (PollPlanStateK (state submitted_world) (JStr "run-1"))
                      (Response 200 complete_body) (settled 1 polling_world))).
Proof.
  assert (Hr : reachable polling_world).
  { apply feasible_reachable; [apply reach_init | vm_compute; reflexivity]. }
  assert (Hfind : find_pending 1 (pending polling_world)
                  = Some (PollPlanStateK (state submitted_world) (JStr "run-1")))
    by (vm_compute; reflexivity).
  assert (Hin : In (1%positive,
                    {| interval_render := state submitted_world;
                       interval_planRunId := JStr "run-1" |})
                   (intervals polling_world)) by (vm_compute; left; reflexivity).
  destruct (answer_handlers_never_clear polling_world 1%nat _
              (Response 200 complete_body) 1%positive
              {| interval_render := state submitted_world;
                 interval_planRunId := JStr "run-1" |} Hr Hfind) as [_ Hkeep].
  split; [exact Hr |]. split; [exact Hfind | exact (Hkeep Hin)].
Defined.
